(** * Shopmate: the product, cart, order and frontend services

    A shallow embedding of the request handlers of the four Express services
    (product-service, cart-service, order-service, frontend-service) and of
    the three DynamoDB tables they own, with the properties of the
    cart / order / stock flow proved about it.

    Conventions of the embedding.
    - A DynamoDB table is a finite map from the value of its hash key to the
      stored item; [GetCommand] is a lookup, [PutCommand] stores the item
      under the value of the item's own key attribute.
    - A handler is a function from the tables (and the request's parameters)
      to the tables after the request and the response that was sent.
      Requests run one at a time: no handler is interleaved with another.
    - [await axios.get/put/delete] on a sibling service is a call of that
      service's handler; a response outside 2xx makes axios throw, which the
      caller's [catch] turns into its own fixed response.
    - Store and network calls themselves succeed; the only failures are the
      ones the handlers produce from the data they read.
    - Stored items and request bodies have the shape the data model gives
      them; where a handler guards a field with [|| []], the field may also
      be missing or null.  The cart service, which never validates the
      [items] of a body, is embedded a second time on records whose [items]
      is any JSON value ([RawCartService]); on data of the model's shape
      the two embeddings agree ([raw_serve_typed]).
    - An identifier that a caller splices into the URL of a sibling service
      reaches the callee as it came: identifiers are taken free of URL
      delimiters, as the UUIDs of the sessions are.
    - Of the metrics only [orderValue.inc(total)] can fail a request: the
      increment of a prom-client counter throws for a value below 0.
    - Identifiers, stock levels and quantities are the integers of the data
      model ([Z]); prices are JavaScript numbers whose arithmetic is kept
      abstract in the class [Number], so nothing proved below depends on
      how addition and multiplication round.
    - [new Date().toISOString()] and [uuid.v4()] are inputs of the handler
      that evaluates them. *)

From stdpp Require Import gmap strings list fin_maps.
From Stdlib Require Import ZArith QArith.

Local Open Scope Z_scope.

(** ** JavaScript numbers that are not known to be integers (prices, totals) *)

Class Number (num : Type) := {
  num_zero : num;                       (* the literal 0 *)
  num_add : num -> num -> num;          (* a + b *)
  num_mul : num -> Z -> num;            (* a * n, n an integer-valued number *)
  num_nonneg : num -> bool              (* !(a < 0) *)
}.

(** Exact decimals, used for the concrete scenarios. *)
#[export] Instance Q_Number : Number Q := {|
  num_zero := 0%Q;
  num_add := Qplus;
  num_mul := fun a n => Qmult a (inject_Z n);
  num_nonneg := fun a => Qle_bool 0 a
|}.

(** An ISO-8601 string, the value of [new Date().toISOString()]. *)
Definition Timestamp := string.

(** ** Data model *)

(** A product record of the products table (hash key [id]). *)
Module Product.
Record t {num : Type} := mk {
    id : Z;
    name : string;
    price : num;
    description : string;
    image : string;
    stock : Z
  }.
Arguments t : clear implicits.
Arguments mk {num}.

(** [{ ...item, stock }] *)
Definition withStock {num} (item : t num) (stock' : Z) : t num :=
    {| id := id item; name := name item; price := price item;
       description := description item; image := image item;
       stock := stock' |}.
End Product.

(** One line of a cart: [{ productId, quantity }]. *)
Module CartItem.
Record t := mk { productId : Z; quantity : Z }.

Definition withQuantity (item : t) (quantity' : Z) : t :=
    {| productId := productId item; quantity := quantity' |}.

#[export] Instance eq_dec : EqDecision t.
Proof. solve_decision. Defined.
End CartItem.

(** A record of the carts table (hash key [userId]) that has the shape of
    the data model: its [items] attribute, like the [items] field of a
    request body of that shape, is missing, null, or a list of cart lines.
    [RawCart] below is the record with any JSON value under [items]. *)
Module Cart.
Inductive ItemsAttr :=
  | Missing
  | Null
  | Items (l : list CartItem.t).

Record t := mk {
    userId : string;
    items : ItemsAttr;
    updatedAt : Timestamp
  }.

(** [v || []] for a missing, null or list value [v]: a list, even an
      empty one, is truthy. *)
Definition orEmpty (v : ItemsAttr) : list CartItem.t :=
    match v with
    | Items l => l
    | Missing | Null => []
    end.

End Cart.

(** A record of the orders table (hash key [id]). *)
Module Order.
Record Customer := mkCustomer {
    c_name : string;
    c_email : string;
    c_address : string
  }.

(** [product: { id, name, price }] *)
Record Snapshot {num : Type} := mkSnapshot {
    p_id : Z;
    p_name : string;
    p_price : num
  }.
Arguments Snapshot : clear implicits.
Arguments mkSnapshot {num}.

Record Item {num : Type} := mkItem {
    product : Snapshot num;
    quantity : Z;
    itemTotal : num
  }.
Arguments Item : clear implicits.
Arguments mkItem {num}.

Record t {num : Type} := mk {
    id : string;
    userId : string;
    date : Timestamp;
    customer : Customer;
    items : list (Item num);
    total : num;
    status : string
  }.
Arguments t : clear implicits.
Arguments mk {num}.
End Order.

(** The three tables. *)
Record World {num : Type} := mkWorld {
  products : gmap Z (Product.t num);
  carts : gmap string Cart.t;
  orders : gmap string (Order.t num)
}.
Arguments World : clear implicits.
Arguments mkWorld {num}.

Definition setProducts {num} (w : World num) (t : gmap Z (Product.t num)) : World num :=
  {| products := t; carts := carts w; orders := orders w |}.

Definition setCarts {num} (w : World num) (t : gmap string Cart.t) : World num :=
  {| products := products w; carts := t; orders := orders w |}.

Definition setOrders {num} (w : World num) (t : gmap string (Order.t num)) : World num :=
  {| products := products w; carts := carts w; orders := t |}.

(** What a handler sends: [res.json(body)] with status 200, or
    [res.status(status).json({ error })]. *)
Inductive Reply (A : Type) :=
| Sent (body : A)
| Failed (status : Z) (error : string).
Arguments Sent {A}.
Arguments Failed {A}.

(** [{ success: true }] *)
Inductive Success := success_true.

(** ** Product service (product-service/server.js) *)
Module ProductService.

(** The sample products for initialization. *)
Definition sampleProducts : list (Product.t Q) :=
  [ Product.mk 1 "Smartphone X12 Pro" (69999 # 100)
      "Latest flagship smartphone with advanced features" "/images/smartphone.jpg" 50;
    Product.mk 2 "UltraBook Pro 16" (129999 # 100)
      "High-performance laptop for professionals" "/images/laptop.jpg" 30;
    Product.mk 3 "SoundWave Elite Headphones" (19999 # 100)
      "Premium wireless headphones with noise cancellation" "/images/headphones.jpg" 100;
    Product.mk 4 "FitTech Pro Smartwatch" (24999 # 100)
      "Advanced fitness tracking smartwatch" "/images/smartwatch.jpg" 45;
    Product.mk 5 "SlimTab Ultra" (49999 # 100)
      "Ultra-thin tablet for creativity and productivity" "/images/tablet.jpg" 25 ].

Section Handlers.
Context {num : Type}.

(** [PutCommand({ TableName: PRODUCTS_TABLE, Item })] *)
Definition putProduct (Item : Product.t num) (w : World num) : World num :=
  setProducts w (<[Product.id Item := Item]> (products w)).

(** GET /api/products: the items of a scan of the table, in the order the
    scan returns them. *)
Definition listProducts (w : World num) : Reply (list (Product.t num)) :=
  Sent (snd <$> map_to_list (products w)).

(** GET /api/products/:id, with [id = parseInt(req.params.id)]. *)
Definition getProduct (w : World num) (id : Z) : Reply (Product.t num) :=
  match products w !! id with
  | None => Failed 404 "Product not found"
  | Some Item => Sent Item
  end.

(** PUT /api/products/:id/stock with body [{ stock }]. *)
Definition setStock (w : World num) (productId : Z) (stock : Z)
  : World num * Reply Success :=
  match products w !! productId with
  | None => (w, Failed 404 "Product not found")
  | Some Item =>
      let updatedProduct := Product.withStock Item stock in
      (putProduct updatedProduct w, Sent success_true)
  end.
End Handlers.

(** [initializeProducts]: the sample catalog is stored, one product after
    the other, when the scan of the table returns no item. *)
Definition initializeProducts (w : World Q) : World Q :=
  if decide (products w = ∅)
  then foldl (fun w product => putProduct product w) w sampleProducts
  else w.
End ProductService.

(** ** Cart service (cart-service/server.js) *)
Module CartService.

(** [Array.prototype.findIndex]; [None] stands for the result -1. *)
Fixpoint findIndex {A} (f : A -> bool) (l : list A) : option nat :=
  match l with
  | [] => None
  | x :: rest => if f x then Some 0%nat else S <$> findIndex f rest
  end.

(** [item => item.productId === productId] *)
Definition hasProductId (productId : Z) (item : CartItem.t) : bool :=
  bool_decide (CartItem.productId item = productId).

(** [item.quantity += quantity] *)
Definition addQuantity (quantity : Z) (item : CartItem.t) : CartItem.t :=
  CartItem.withQuantity item (CartItem.quantity item + quantity).

(** The "Update cart" step of the add handler. *)
Definition updateCart (cartItems : list CartItem.t) (productId quantity : Z)
  : list CartItem.t :=
  match findIndex (hasProductId productId) cartItems with
  | Some existingItemIndex => alter (addQuantity quantity) existingItemIndex cartItems
  | None => cartItems ++ [CartItem.mk productId quantity]
  end.

Section Handlers.
Context {num : Type}.

(** [PutCommand({ TableName: CARTS_TABLE, Item })] *)
Definition putCart (Item : Cart.t) (w : World num) : World num :=
  setCarts w (<[Cart.userId Item := Item]> (carts w)).

(** [result.Item ? result.Item.items || [] : []] *)
Definition readCart (w : World num) (userId : string) : list CartItem.t :=
  match carts w !! userId with
  | Some Item => Cart.orEmpty (Cart.items Item)
  | None => []
  end.

(** GET /api/cart/:userId *)
Definition getCart (w : World num) (userId : string) : Reply (list CartItem.t) :=
  Sent (readCart w userId).

(** POST /api/cart/:userId/add with body [{ productId, quantity }]; the
    response body is [{ success: true, cart }]. *)
Definition addItem (w : World num) (userId : string) (productId quantity : Z)
    (now : Timestamp) : World num * Reply (list CartItem.t) :=
  match ProductService.getProduct w productId with
  | Failed _ _ => (w, Failed 500 "Failed to add to cart")
  | Sent product =>
      if Product.stock product <? quantity
      then (w, Failed 400 "Insufficient stock")
      else
        let cartItems := updateCart (readCart w userId) productId quantity in
        let w1 := putCart (Cart.mk userId (Cart.Items cartItems) now) w in
        match ProductService.setStock w1 productId (Product.stock product - quantity) with
        | (w2, Failed _ _) => (w2, Failed 500 "Failed to add to cart")
        | (w2, Sent _) => (w2, Sent cartItems)
        end
  end.

(** PUT /api/cart/:userId with a body [{ items }] of the data model's
    shape; the response body is [{ success: true, cart: items }].
    [RawCartService.replaceCart] is the handler on any JSON value. *)
Definition replaceCart (w : World num) (userId : string) (items : Cart.ItemsAttr)
    (now : Timestamp) : World num * Reply Cart.ItemsAttr :=
  (putCart (Cart.mk userId (Cart.Items (Cart.orEmpty items)) now) w, Sent items).

(** DELETE /api/cart/:userId *)
Definition clearCart (w : World num) (userId : string) (now : Timestamp)
  : World num * Reply Success :=
  (putCart (Cart.mk userId (Cart.Items []) now) w, Sent success_true).
End Handlers.
End CartService.

(** ** The cart service on any JSON value under [items] *)

(** JSON values, as [express.json()] parses them and the document client
    stores them. *)
#[local] Unset Elimination Schemes.
Inductive Json :=
| JNull
| JBool (b : bool)
| JNumber (n : Z)
| JString (s : string)
| JArray (elements : list Json)
| JObject (fields : list (string * Json)).
#[local] Set Elimination Schemes.

(** A record of the carts table whose [items] attribute is not bound to the
    data model: missing, an array of cart lines, or any JSON value that is
    not an array.  The handlers below never validate [items]. *)
Module RawCart.
Inductive NonArray :=
| NNull
| NBool (b : bool)
| NNumber (n : Z)
| NString (s : string)
| NObject (fields : list (string * Json)).

Inductive Value :=
| Missing
| Lines (l : list CartItem.t)
| Other (v : NonArray).

Record t := mk {
  userId : string;
  items : Value;
  updatedAt : Timestamp
}.

(** The truth value of a value that is not an array: [null], [false], [0]
    and the empty string are falsy, every object is truthy. *)
Definition truthy (v : NonArray) : bool :=
  match v with
  | NNull => false
  | NBool b => b
  | NNumber n => negb (n =? 0)
  | NString s => negb (bool_decide (s = ""))
  | NObject _ => true
  end.

(** [v || []]: the array [v] (an array, even an empty one, is truthy), the
    truthy value [v] as it is, and [[]] for a missing or falsy [v]. *)
Definition orEmpty (v : Value) : list CartItem.t + NonArray :=
  match v with
  | Missing => inl []
  | Lines l => inl l
  | Other x => if truthy x then inr x else inl []
  end.

(** The value [v || []] as it is stored. *)
Definition stored (v : Value) : Value :=
  match orEmpty v with
  | inl l => Lines l
  | inr x => Other x
  end.

Definition isArray (v : Value) : bool :=
  match v with
  | Lines _ => true
  | Missing | Other _ => false
  end.

(** [!v] *)
Definition falsy (v : Value) : bool :=
  match v with
  | Missing => true
  | Lines _ => false
  | Other x => negb (truthy x)
  end.

(** The value of the data model's shape, as a value. *)
Definition ofItems (v : Cart.ItemsAttr) : Value :=
  match v with
  | Cart.Missing => Missing
  | Cart.Null => Other NNull
  | Cart.Items l => Lines l
  end.

Definition ofCart (Item : Cart.t) : t :=
  {| userId := Cart.userId Item; items := ofItems (Cart.items Item);
     updatedAt := Cart.updatedAt Item |}.
End RawCart.

(** The three tables, the carts table holding raw records. *)
Record RawWorld {num : Type} := mkRawWorld {
  rproducts : gmap Z (Product.t num);
  rcarts : gmap string RawCart.t;
  rorders : gmap string (Order.t num)
}.
Arguments RawWorld : clear implicits.
Arguments mkRawWorld {num}.

(** The tables the product service sees. *)
Definition catalog {num} (rw : RawWorld num) : World num :=
  {| products := rproducts rw; carts := ∅; orders := rorders rw |}.

(** Tables of the data model's shape, as raw tables. *)
Definition rawOf {num} (w : World num) : RawWorld num :=
  {| rproducts := products w; rcarts := RawCart.ofCart <$> carts w; rorders := orders w |}.

Module RawCartService.
Section Handlers.
Context {num : Type}.

(** [PutCommand({ TableName: CARTS_TABLE, Item })] *)
Definition putCart (Item : RawCart.t) (rw : RawWorld num) : RawWorld num :=
  {| rproducts := rproducts rw;
     rcarts := <[RawCart.userId Item := Item]> (rcarts rw);
     rorders := rorders rw |}.

(** [result.Item ? result.Item.items || [] : []] *)
Definition readCart (rw : RawWorld num) (userId : string)
  : list CartItem.t + RawCart.NonArray :=
  match rcarts rw !! userId with
  | Some Item => RawCart.orEmpty (RawCart.items Item)
  | None => inl []
  end.

(** GET /api/cart/:userId: [res.json(cart)], whatever [cart] is. *)
Definition getCart (rw : RawWorld num) (userId : string)
  : Reply (list CartItem.t + RawCart.NonArray) :=
  Sent (readCart rw userId).

(** PUT /api/products/:id/stock, called on the raw tables. *)
Definition setStock (rw : RawWorld num) (productId stock : Z)
  : RawWorld num * Reply Success :=
  let (w', reply) := ProductService.setStock (catalog rw) productId stock in
  ({| rproducts := products w'; rcarts := rcarts rw; rorders := rorders rw |}, reply).

(** POST /api/cart/:userId/add with body [{ productId, quantity }].  On a
    stored value that is not an array, [cartItems.findIndex] is not a
    function: the TypeError is caught and answered with 500, after the
    product was read and the stock checked, before any write. *)
Definition addItem (rw : RawWorld num) (userId : string) (productId quantity : Z)
    (now : Timestamp) : RawWorld num * Reply (list CartItem.t) :=
  match ProductService.getProduct (catalog rw) productId with
  | Failed _ _ => (rw, Failed 500 "Failed to add to cart")
  | Sent product =>
      if Product.stock product <? quantity
      then (rw, Failed 400 "Insufficient stock")
      else
        match readCart rw userId with
        | inr _ => (rw, Failed 500 "Failed to add to cart")
        | inl cart =>
            let cartItems := CartService.updateCart cart productId quantity in
            let rw1 := putCart (RawCart.mk userId (RawCart.Lines cartItems) now) rw in
            match setStock rw1 productId (Product.stock product - quantity) with
            | (rw2, Failed _ _) => (rw2, Failed 500 "Failed to add to cart")
            | (rw2, Sent _) => (rw2, Sent cartItems)
            end
        end
  end.

(** PUT /api/cart/:userId with body [{ items }]: [items || []] is stored
    without a look at what kind of value it is; the response body is
    [{ success: true, cart: items }]. *)
Definition replaceCart (rw : RawWorld num) (userId : string) (items : RawCart.Value)
    (now : Timestamp) : RawWorld num * Reply RawCart.Value :=
  (putCart (RawCart.mk userId (RawCart.stored items) now) rw, Sent items).

(** DELETE /api/cart/:userId *)
Definition clearCart (rw : RawWorld num) (userId : string) (now : Timestamp)
  : RawWorld num * Reply Success :=
  (putCart (RawCart.mk userId (RawCart.Lines []) now) rw, Sent success_true).
End Handlers.
End RawCartService.

(** ** Order service (order-service/server.js) *)
Module OrderService.
Section Handlers.
Context {num : Type} `{Number num}.

(** The order line pushed for one cart line and its product. *)
Definition orderItem (product : Product.t num) (item : CartItem.t) : Order.Item num :=
  let itemTotal := num_mul (Product.price product) (CartItem.quantity item) in
  Order.mkItem
    (Order.mkSnapshot (Product.id product) (Product.name product) (Product.price product))
    (CartItem.quantity item)
    itemTotal.

(** The loop [for (const item of cartItems)], started with the values of
    [total] and [orderItems] reached so far; [None] when a product request
    is answered outside 2xx, so that axios throws out of the loop. *)
Fixpoint orderLoop (w : World num) (cartItems : list CartItem.t)
    (total : num) (orderItems : list (Order.Item num))
  : option (num * list (Order.Item num)) :=
  match cartItems with
  | [] => Some (total, orderItems)
  | item :: rest =>
      match ProductService.getProduct w (CartItem.productId item) with
      | Failed _ _ => None
      | Sent product =>
          let line := orderItem product item in
          orderLoop w rest (num_add total (Order.itemTotal line)) (orderItems ++ [line])
      end
  end.

(** [PutCommand({ TableName: ORDERS_TABLE, Item: order })] *)
Definition putOrder (Item : Order.t num) (w : World num) : World num :=
  setOrders w (<[Order.id Item := Item]> (orders w)).

(** POST /api/orders with body [{ userId, customer }].  [orderId] is the
    value of [uuid.v4()], [date] the time the order is assembled and
    [clearedAt] the time the cart service handles the DELETE.  After the
    order is stored and the cart cleared, [orderValue.inc(total)] adds the
    total to a prom-client counter, whose [inc] throws for a value below 0:
    the [catch] then answers 500, the two writes done.  (The increment
    also throws for a value that is not finite, which a sum of stored
    prices times stored quantities is not.)  [userId] stands in the two cart URLs as it came; it is taken
    free of URL delimiters, as the identifiers of the sessions are. *)
Definition createOrder (w : World num) (userId : string) (customer : Order.Customer)
    (orderId : string) (date clearedAt : Timestamp)
  : World num * Reply (Order.t num) :=
  match CartService.getCart w userId with
  | Failed _ _ => (w, Failed 500 "Failed to create order")
  | Sent cartItems =>
      if (length cartItems =? 0)%nat
      then (w, Failed 400 "Cart is empty")
      else
        match orderLoop w cartItems num_zero [] with
        | None => (w, Failed 500 "Failed to create order")
        | Some (total, orderItems) =>
            let order :=
              Order.mk orderId userId date customer orderItems total "Confirmed" in
            let w1 := putOrder order w in
            match CartService.clearCart w1 userId clearedAt with
            | (w2, Failed _ _) => (w2, Failed 500 "Failed to create order")
            | (w2, Sent _) =>
                if num_nonneg total
                then (w2, Sent order)
                else (w2, Failed 500 "Failed to create order")
            end
        end
  end.

(** GET /api/orders/:id *)
Definition getOrder (w : World num) (id : string) : Reply (Order.t num) :=
  match orders w !! id with
  | None => Failed 404 "Order not found"
  | Some Item => Sent Item
  end.

(** GET /api/orders/user/:userId: the scan of the orders table with the
    filter [userId = :userId]. *)
Definition listOrdersForUser (w : World num) (userId : string)
  : Reply (list (Order.t num)) :=
  Sent (filter (fun order => Order.userId order = userId)
          (snd <$> map_to_list (orders w))).
End Handlers.
End OrderService.

(** ** Frontend service (frontend-service/server.js) *)
Module Frontend.

(** What the browser receives from the cart routes: [res.redirect]. *)
Inductive Page :=
| Redirect (location : string).

(** [req.session]: the per-browser record, which holds the user identifier
    once one was generated. *)
Record Session := mkSession { userId : option string }.

(** [Array.prototype.find] *)
Fixpoint find {A} (f : A -> bool) (l : list A) : option A :=
  match l with
  | [] => None
  | x :: rest => if f x then Some x else find f rest
  end.

(** The helper [getUserId]: the session's user identifier, set to [fresh],
    the value of [uuid.v4()], when the session has none yet. *)
Definition getUserId (session : Session) (fresh : string) : string * Session :=
  match userId session with
  | Some id => (id, session)
  | None => (fresh, {| userId := Some fresh |})
  end.

Section Handlers.
Context {num : Type}.

(** The body of the [try] block of POST /cart/update/:id for [userId], with
    [productId = parseInt(req.params.id)] and
    [newQuantity = parseInt(req.body.quantity)]; [None] when a request to a
    sibling service is answered outside 2xx and axios throws.  [now] is the
    time at which the cart service handles the PUT, when there is one. *)
Definition tryCartUpdate (w : World num) (userId : string) (productId newQuantity : Z)
    (now : Timestamp) : World num * option Page :=
  match CartService.getCart w userId with
  | Failed _ _ => (w, None)
  | Sent cartItems =>
      match find (CartService.hasProductId productId) cartItems with
      | Some currentItem =>
          let quantityDiff := CartItem.quantity currentItem - newQuantity in
          if newQuantity <=? 0
          then
            match ProductService.getProduct w productId with
            | Failed _ _ => (w, None)
            | Sent product =>
                match ProductService.setStock w productId
                        (Product.stock product + CartItem.quantity currentItem) with
                | (w1, Failed _ _) => (w1, None)
                | (w1, Sent _) =>
                    let updatedItems :=
                      filter (fun item => CartItem.productId item <> productId) cartItems in
                    match CartService.replaceCart w1 userId (Cart.Items updatedItems) now with
                    | (w2, Failed _ _) => (w2, None)
                    | (w2, Sent _) => (w2, Some (Redirect "/cart"))
                    end
                end
            end
          else
            match ProductService.getProduct w productId with
            | Failed _ _ => (w, None)
            | Sent product =>
                match ProductService.setStock w productId
                        (Product.stock product + quantityDiff) with
                | (w1, Failed _ _) => (w1, None)
                | (w1, Sent _) =>
                    let updatedItems :=
                      map (fun item =>
                             if CartService.hasProductId productId item
                             then CartItem.withQuantity item newQuantity
                             else item) cartItems in
                    match CartService.replaceCart w1 userId (Cart.Items updatedItems) now with
                    | (w2, Failed _ _) => (w2, None)
                    | (w2, Sent _) => (w2, Some (Redirect "/cart"))
                    end
                end
            end
      | None => (w, Some (Redirect "/cart"))
      end
  end.

(** POST /cart/update/:id: the [try] block, and the [catch] that redirects
    to /cart as well. *)
Definition cartUpdate (w : World num) (session : Session) (fresh : string)
    (productId newQuantity : Z) (now : Timestamp) : World num * Session * Page :=
  let (userId, session') := getUserId session fresh in
  match tryCartUpdate w userId productId newQuantity now with
  | (w', Some page) => (w', session', page)
  | (w', None) => (w', session', Redirect "/cart")
  end.
End Handlers.

(** [parseInt(req.body.quantity) || 1], on the parsed integer, [None] being
    NaN: NaN and 0 are falsy. *)
Definition quantityOrOne (parsed : option Z) : Z :=
  match parsed with
  | None => 1
  | Some 0 => 1
  | Some n => n
  end.

(** What POST /orders/place sends: a redirect to the confirmation page, or
    the rendered error page with its status, message and cart count. *)
Inductive PlaceResult :=
| Confirmation (location : string)
| ErrorPage (status : Z) (message : string) (cartCount : nat).

(** One line of the cart page: [{ ...product, quantity, itemTotal }]. *)
Record CartLine {num : Type} := mkCartLine {
  line_product : Product.t num;
  line_quantity : Z;
  line_itemTotal : num
}.
Arguments CartLine : clear implicits.
Arguments mkCartLine {num}.

(** The locals of the cart page: [{ cart, total, cartCount }]. *)
Record CartView {num : Type} := mkCartView {
  view_cart : list (CartLine num);
  view_total : num;
  view_cartCount : nat
}.
Arguments CartView : clear implicits.
Arguments mkCartView {num}.

Section CartRoutes.
Context {num : Type}.

(** The helper [getCartCount]: the number of lines of the cart, 0 when the
    cart service does not answer 2xx. *)
Definition getCartCount (w : World num) (userId : string) : nat :=
  match CartService.getCart w userId with
  | Sent data => length data
  | Failed _ _ => 0%nat
  end.

(** POST /cart/add with the body fields [productId] and [quantity] parsed:
    [productId = parseInt(req.body.productId)], and [quantity] the result
    of [parseInt(req.body.quantity)]. *)
Definition cartAdd (w : World num) (session : Session) (fresh : string)
    (productId : Z) (quantity : option Z) (now : Timestamp)
  : World num * Session * Page :=
  let (userId, session') := getUserId session fresh in
  match CartService.addItem w userId productId (quantityOrOne quantity) now with
  | (w', Sent _) => (w', session', Redirect "/cart")
  | (w', Failed _ _) =>
      (w', session', Redirect "/products?error=Failed to add item to cart")
  end.

(** The body of the [try] block of GET /cart/remove/:id; [None] when axios
    throws. *)
Definition tryCartRemove (w : World num) (userId : string) (productId : Z)
    (now : Timestamp) : World num * option Page :=
  match CartService.getCart w userId with
  | Failed _ _ => (w, None)
  | Sent cartItems =>
      match find (CartService.hasProductId productId) cartItems with
      | Some itemToRemove =>
          match ProductService.getProduct w productId with
          | Failed _ _ => (w, None)
          | Sent product =>
              match ProductService.setStock w productId
                      (Product.stock product + CartItem.quantity itemToRemove) with
              | (w1, Failed _ _) => (w1, None)
              | (w1, Sent _) =>
                  let updatedItems :=
                    filter (fun item => CartItem.productId item <> productId) cartItems in
                  match CartService.replaceCart w1 userId (Cart.Items updatedItems) now with
                  | (w2, Failed _ _) => (w2, None)
                  | (w2, Sent _) => (w2, Some (Redirect "/cart"))
                  end
              end
          end
      | None => (w, Some (Redirect "/cart"))
      end
  end.

(** GET /cart/remove/:id *)
Definition cartRemove (w : World num) (session : Session) (fresh : string)
    (productId : Z) (now : Timestamp) : World num * Session * Page :=
  let (userId, session') := getUserId session fresh in
  match tryCartRemove w userId productId now with
  | (w', Some page) => (w', session', page)
  | (w', None) => (w', session', Redirect "/cart")
  end.

(** The loop "Restore stock for all items" of GET /cart/clear; the flag is
    [false] when axios throws out of the loop. *)
Fixpoint restoreStock (w : World num) (cartItems : list CartItem.t)
  : World num * bool :=
  match cartItems with
  | [] => (w, true)
  | item :: rest =>
      match ProductService.getProduct w (CartItem.productId item) with
      | Failed _ _ => (w, false)
      | Sent product =>
          match ProductService.setStock w (CartItem.productId item)
                  (Product.stock product + CartItem.quantity item) with
          | (w1, Failed _ _) => (w1, false)
          | (w1, Sent _) => restoreStock w1 rest
          end
      end
  end.

(** GET /cart/clear; [now] is the time at which the cart service handles
    the DELETE. *)
Definition cartClear (w : World num) (session : Session) (fresh : string)
    (now : Timestamp) : World num * Session * Page :=
  let (userId, session') := getUserId session fresh in
  match CartService.getCart w userId with
  | Failed _ _ => (w, session', Redirect "/cart")
  | Sent cartItems =>
      match restoreStock w cartItems with
      | (w1, false) => (w1, session', Redirect "/cart")
      | (w1, true) =>
          (fst (CartService.clearCart w1 userId now), session', Redirect "/cart")
      end
  end.
End CartRoutes.

Section PageRoutes.
Context {num : Type} `{Number num}.

(** The loop of GET /cart, started with the values of [total] and [cart]
    reached so far; [None] when axios throws. *)
Fixpoint cartLoop (w : World num) (cartItems : list CartItem.t)
    (total : num) (cart : list (CartLine num))
  : option (num * list (CartLine num)) :=
  match cartItems with
  | [] => Some (total, cart)
  | item :: rest =>
      match ProductService.getProduct w (CartItem.productId item) with
      | Failed _ _ => None
      | Sent product =>
          let itemTotal := num_mul (Product.price product) (CartItem.quantity item) in
          cartLoop w rest (num_add total itemTotal)
            (cart ++ [mkCartLine product (CartItem.quantity item) itemTotal])
      end
  end.

(** GET /cart: the locals the cart page is rendered with. *)
Definition cartPage (w : World num) (session : Session) (fresh : string)
  : Session * CartView num :=
  let (userId, session') := getUserId session fresh in
  match CartService.getCart w userId with
  | Failed _ _ => (session', mkCartView [] num_zero 0%nat)
  | Sent cartItems =>
      match cartLoop w cartItems num_zero [] with
      | Some (total, cart) => (session', mkCartView cart total (length cartItems))
      | None => (session', mkCartView [] num_zero 0%nat)
      end
  end.

(** POST /orders/place with the body [{ name, email, address }]; [orderId],
    [date] and [clearedAt] are as for the order service. *)
Definition ordersPlace (w : World num) (session : Session) (fresh : string)
    (name email address : string) (orderId : string) (date clearedAt : Timestamp)
  : World num * Session * PlaceResult :=
  let (userId, session') := getUserId session fresh in
  match OrderService.createOrder w userId (Order.mkCustomer name email address)
          orderId date clearedAt with
  | (w', Sent data) =>
      (w', session', Confirmation ("/orders/confirmation/" ++ Order.id data))
  | (w', Failed _ _) =>
      (w', session', ErrorPage 500 "Failed to place order" (getCartCount w' userId))
  end.
End PageRoutes.
End Frontend.

(** * Vocabulary of the properties *)

(** Every product is stored under the value of its hash key [id], as it is
    in a table that is only written by [PutCommand]. *)
Definition keyed {num} (w : World num) : Prop :=
  forall k Item, products w !! k = Some Item -> Product.id Item = k.

(** The stock level of a product, when the catalog holds it. *)
Definition stockOf {num} (w : World num) (productId : Z) : option Z :=
  Product.stock <$> products w !! productId.

(** No two lines of the cart name the same product. *)
Definition uniqueLines (cart : list CartItem.t) : Prop :=
  NoDup (CartItem.productId <$> cart).

(** Every stored cart has unique lines. *)
Definition uniqueCarts {num} (w : World num) : Prop :=
  forall u, uniqueLines (CartService.readCart w u).

(** The cart after an add, in the words of the contract: the quantity of the
    first line of [productId] is incremented; a line is appended when there
    is none. *)
Fixpoint merge (productId quantity : Z) (cart : list CartItem.t) : list CartItem.t :=
  match cart with
  | [] => [CartItem.mk productId quantity]
  | item :: rest =>
      if bool_decide (CartItem.productId item = productId)
      then CartItem.mk productId (CartItem.quantity item + quantity) :: rest
      else item :: merge productId quantity rest
  end.

(** The number of units of [productId] a cart holds, over all its lines. *)
Fixpoint units (productId : Z) (cart : list CartItem.t) : Z :=
  match cart with
  | [] => 0
  | item :: rest =>
      (if bool_decide (CartItem.productId item = productId)
       then CartItem.quantity item else 0) + units productId rest
  end.

(** The requests that write the carts table. *)
Inductive CartRequest :=
| AddItem (userId : string) (productId quantity : Z) (now : Timestamp)
| ReplaceCart (userId : string) (items : Cart.ItemsAttr) (now : Timestamp)
| ClearCart (userId : string) (now : Timestamp).

Definition handle {num} (w : World num) (r : CartRequest) : World num :=
  match r with
  | AddItem userId productId quantity now =>
      fst (CartService.addItem w userId productId quantity now)
  | ReplaceCart userId items now => fst (CartService.replaceCart w userId items now)
  | ClearCart userId now => fst (CartService.clearCart w userId now)
  end.

(** The tables after a sequence of requests, served one after the other. *)
Definition serve {num} (w : World num) (rs : list CartRequest) : World num :=
  foldl handle w rs.

(** A request that does not bring duplicate lines with it: any add or
    clear, and a replace whose list has unique lines. *)
Definition uniqueRequest (r : CartRequest) : Prop :=
  match r with
  | ReplaceCart _ items _ => uniqueLines (Cart.orEmpty items)
  | AddItem _ _ _ _ | ClearCart _ _ => True
  end.

(** The requests that write the carts table, with any value as [items]. *)
Inductive RawCartRequest :=
| RawAddItem (userId : string) (productId quantity : Z) (now : Timestamp)
| RawReplaceCart (userId : string) (items : RawCart.Value) (now : Timestamp)
| RawClearCart (userId : string) (now : Timestamp).

Definition rawHandle {num} (rw : RawWorld num) (r : RawCartRequest) : RawWorld num :=
  match r with
  | RawAddItem userId productId quantity now =>
      fst (RawCartService.addItem rw userId productId quantity now)
  | RawReplaceCart userId items now =>
      fst (RawCartService.replaceCart rw userId items now)
  | RawClearCart userId now => fst (RawCartService.clearCart rw userId now)
  end.

Definition rawServe {num} (rw : RawWorld num) (rs : list RawCartRequest) : RawWorld num :=
  foldl rawHandle rw rs.

(** A request whose [items], if it has any, is an array or falsy. *)
Definition arrayRequest (r : RawCartRequest) : Prop :=
  match r with
  | RawReplaceCart _ items _ => RawCart.isArray items || RawCart.falsy items = true
  | RawAddItem _ _ _ _ | RawClearCart _ _ => True
  end.

(** The raw request of a request of the data model's shape. *)
Definition rawRequest (r : CartRequest) : RawCartRequest :=
  match r with
  | AddItem userId productId quantity now => RawAddItem userId productId quantity now
  | ReplaceCart userId items now => RawReplaceCart userId (RawCart.ofItems items) now
  | ClearCart userId now => RawClearCart userId now
  end.

(** The order line of a cart line at the current catalog: the snapshot
    [{ id, name, price }] of the product the catalog holds under the line's
    [productId], the line's quantity, and [itemTotal = price * quantity]. *)
Definition lineOf {num} `{Number num} (w : World num)
    (item : CartItem.t) (line : Order.Item num) : Prop :=
  exists product,
    products w !! CartItem.productId item = Some product /\
    line = Order.mkItem
             (Order.mkSnapshot (Product.id product) (Product.name product)
                (Product.price product))
             (CartItem.quantity item)
             (num_mul (Product.price product) (CartItem.quantity item)).

(** The sum of the line totals, taken from 0 in the order of the lines. *)
Definition sumTotals {num} `{Number num} (lines : list (Order.Item num)) : num :=
  foldl (fun total line => num_add total (Order.itemTotal line)) num_zero lines.

(** ** Scenario data *)

(** The catalog right after the first boot of the product service, with no
    cart and no order yet: the state the scenarios start from. *)
Definition seeded : World Q :=
  ProductService.initializeProducts (mkWorld ∅ ∅ ∅).

(** The first sample product. *)
Definition phone : Product.t Q :=
  Product.mk 1 "Smartphone X12 Pro" (69999 # 100)
    "Latest flagship smartphone with advanced features" "/images/smartphone.jpg" 50.

Definition alice : Order.Customer := Order.mkCustomer "A" "a@x.com" "1 Main Street".

Definition noon : Timestamp := "2024-05-01T12:00:00.000Z".
Definition later : Timestamp := "2024-05-01T12:00:00.250Z".

(** The seeded catalog after PUT /api/cart/u1 with one line for the product
    999, which the catalog does not hold. *)
Definition danglingCart : World Q :=
  fst (CartService.replaceCart seeded "u1" (Cart.Items [CartItem.mk 999 1]) noon).

(** The seeded catalog after [u1] added two units of the product 1. *)
Definition cartOfTwo : World Q :=
  fst (CartService.addItem seeded "u1" 1 2 noon).

(** The seeded catalog after PUT /api/cart/u1 with a line for the product 1
    followed by a line for the product 999. *)
Definition mixedCart : World Q :=
  fst (CartService.replaceCart seeded "u1"
         (Cart.Items [CartItem.mk 1 2; CartItem.mk 999 1]) noon).

(** The seeded catalog after [u1] added -1 unit of the product 1: the
    stock check [50 < -1] lets the request through. *)
Definition negativeCart : World Q :=
  fst (CartService.addItem seeded "u1" 1 (-1) noon).

(** A session that already holds a user identifier. *)
Definition session_u1 : Frontend.Session := Frontend.mkSession (Some "u1").

(** * Properties *)

(** ** Product service *)
Section ProductServiceProperties.
Context {num : Type}.
Implicit Types (w : World num) (Item : Product.t num).

Lemma putProduct_keyed w Item : keyed w -> keyed (ProductService.putProduct Item w).
Proof.
  intros Hkeyed k Item'. cbn. destruct (decide (Product.id Item = k)) as [<-|Hne].
  - rewrite lookup_insert_eq. by intros [= <-].
  - rewrite lookup_insert_ne by done. apply Hkeyed.
Qed.

Lemma setStock_keyed w id s : keyed w -> keyed (fst (ProductService.setStock w id s)).
Proof.
  intros Hkeyed. unfold ProductService.setStock.
  destruct (products w !! id) as [Item|]; [|done]. by apply putProduct_keyed.
Qed.

(** What a successful stock write leaves in the three tables. *)
Lemma setStock_present w id s Item :
  products w !! id = Some Item ->
  Product.id Item = id ->
  ProductService.setStock w id s =
    (setProducts w (<[id := Product.withStock Item s]> (products w)), Sent success_true).
Proof.
  intros Hget Hkey. unfold ProductService.setStock, ProductService.putProduct.
  rewrite Hget. cbn. by rewrite Hkey.
Qed.

Lemma setStock_absent w id s :
  products w !! id = None ->
  ProductService.setStock w id s = (w, Failed 404 "Product not found").
Proof. intros Hget. unfold ProductService.setStock. by rewrite Hget. Qed.

(** C5. PUT /api/products/:id/stock.  When the table holds the product [id]
    (a record stored under [id] whose [id] attribute is [id]), the handler
    answers [{ success: true }] and the record stored under [id] afterwards
    has [stock = s] and the [id], [name], [price], [description] and [image]
    of the record that was read; no other product, no cart and no order is
    written.  When the table holds nothing under [id], the handler answers
    404 "Product not found" and the three tables are as before. *)
Theorem setStock_rewrites_only_stock w id s :
  (forall Item,
      products w !! id = Some Item ->
      Product.id Item = id ->
      let (w', reply) := ProductService.setStock w id s in
      reply = Sent success_true /\
      (exists Item',
          products w' !! id = Some Item' /\
          Product.stock Item' = s /\
          Product.id Item' = Product.id Item /\
          Product.name Item' = Product.name Item /\
          Product.price Item' = Product.price Item /\
          Product.description Item' = Product.description Item /\
          Product.image Item' = Product.image Item) /\
      (forall other, other <> id -> products w' !! other = products w !! other) /\
      carts w' = carts w /\
      orders w' = orders w) /\
  (products w !! id = None ->
   ProductService.setStock w id s = (w, Failed 404 "Product not found")).
Proof.
  split.
  - intros Item Hget Hkey. rewrite (setStock_present _ _ _ _ Hget Hkey).
    split; [done|]. split; [|split; [|done]].
    + exists (Product.withStock Item s). cbn. by rewrite lookup_insert_eq.
    + intros other Hne. cbn. by rewrite lookup_insert_ne.
  - apply setStock_absent.
Qed.

(** C7. GET /api/products/:id right after a successful
    PUT /api/products/:id/stock with [{ stock: s }] answers 200 with a
    product whose stock is [s]. *)
Theorem getProduct_after_setStock w id s Item :
  products w !! id = Some Item ->
  Product.id Item = id ->
  let (w', reply) := ProductService.setStock w id s in
  reply = Sent success_true /\
  exists product,
    ProductService.getProduct w' id = Sent product /\
    Product.stock product = s.
Proof.
  intros Hget Hkey. rewrite (setStock_present _ _ _ _ Hget Hkey).
  split; [done|]. exists (Product.withStock Item s).
  unfold ProductService.getProduct. cbn. by rewrite lookup_insert_eq.
Qed.
End ProductServiceProperties.

(** ** Cart service *)

Section CartServiceProperties.
Context {num : Type}.
Implicit Types (w : World num) (cart : list CartItem.t) (u : string) (p q : Z).

Lemma updateCart_merge cart p q : CartService.updateCart cart p q = merge p q cart.
Proof.
  unfold CartService.updateCart. induction cart as [|item rest IH]; [done|].
  cbn. unfold CartService.hasProductId at 1.
  destruct (bool_decide (CartItem.productId item = p)) eqn:Hhd.
  - cbn. unfold CartService.addQuantity, CartItem.withQuantity.
    by apply bool_decide_eq_true in Hhd as ->.
  - destruct (CartService.findIndex (CartService.hasProductId p) rest) as [i|];
      cbn in *; by rewrite <- IH.
Qed.

Lemma merge_absent cart p q :
  p ∉ (CartItem.productId <$> cart) -> merge p q cart = cart ++ [CartItem.mk p q].
Proof.
  induction cart as [|item rest IH]; [done|]. cbn. intros Hnot.
  apply not_elem_of_cons in Hnot as [Hne Hrest].
  rewrite bool_decide_eq_false_2 by congruence. by rewrite IH.
Qed.

Lemma merge_ids_present cart p q :
  p ∈ (CartItem.productId <$> cart) ->
  CartItem.productId <$> merge p q cart = CartItem.productId <$> cart.
Proof.
  induction cart as [|item rest IH]; cbn; intros Hin.
  - by apply elem_of_nil in Hin.
  - case_bool_decide as Hhd; cbn; [by rewrite Hhd|].
    apply elem_of_cons in Hin as [Heq|Hin]; [congruence|]. by rewrite IH.
Qed.

Lemma units_merge cart p q : units p (merge p q cart) = units p cart + q.
Proof.
  induction cart as [|item rest IH]; cbn.
  - rewrite bool_decide_eq_true_2 by done. lia.
  - case_bool_decide as Hhd; cbn.
    + rewrite bool_decide_eq_true_2 by done. lia.
    + rewrite bool_decide_eq_false_2 by done. lia.
Qed.

Lemma units_merge_other cart p q p' : p' <> p -> units p' (merge p q cart) = units p' cart.
Proof.
  intros Hne. induction cart as [|item rest IH]; cbn.
  - rewrite bool_decide_eq_false_2 by congruence. lia.
  - case_bool_decide as Hhd; cbn.
    + rewrite !bool_decide_eq_false_2 by congruence. lia.
    + by rewrite IH.
Qed.

(** The add handler on a product in stock. *)
Lemma addItem_in_stock w u p q now product :
  products w !! p = Some product ->
  Product.id product = p ->
  q <= Product.stock product ->
  CartService.addItem w u p q now =
    (setProducts
       (CartService.putCart (Cart.mk u (Cart.Items (merge p q (CartService.readCart w u))) now) w)
       (<[p := Product.withStock product (Product.stock product - q)]> (products w)),
     Sent (merge p q (CartService.readCart w u))).
Proof.
  intros Hget Hkey Hle. unfold CartService.addItem, ProductService.getProduct.
  rewrite Hget. destruct (Z.ltb_spec (Product.stock product) q) as [Hlt|_]; [lia|].
  rewrite updateCart_merge.
  erewrite setStock_present; [done|exact Hget|exact Hkey].
Qed.

Lemma merge_twice_absent cart p q1 q2 :
  p ∉ (CartItem.productId <$> cart) ->
  merge p q2 (merge p q1 cart) = cart ++ [CartItem.mk p (q1 + q2)].
Proof.
  induction cart as [|item rest IH]; cbn; intros Hnot.
  - by rewrite bool_decide_eq_true_2.
  - apply not_elem_of_cons in Hnot as [Hne Hrest].
    rewrite bool_decide_eq_false_2 by congruence. cbn.
    rewrite bool_decide_eq_false_2 by congruence. by rewrite IH.
Qed.

(** C1. POST /api/cart/:userId/add for a product [p] the catalog holds and a
    quantity [q <= stock(p)]: the handler answers 200 with the merged cart,
    which is also what GET /api/cart/:userId answers afterwards.  The merged
    cart is the prior cart with [{ productId: p, quantity: q }] appended when
    no prior line names [p], and otherwise has the lines of the prior cart,
    in order, with [q] more units of [p]; the units of every other product
    are as before.  The stock of [p] is decreased by [q].  A second add of
    [q2] units of [p] for the same user accumulates: the cart then holds
    [q + q2] more units of [p] than at the start (in one line of quantity
    [q + q2] when the cart had no line for [p]), and the stock is decreased
    by [q + q2]. *)
Theorem addItem_merges_and_decrements w u p q now product :
  products w !! p = Some product ->
  Product.id product = p ->
  q <= Product.stock product ->
  let cart := CartService.readCart w u in
  let cart' := merge p q cart in
  let (w', reply) := CartService.addItem w u p q now in
  reply = Sent cart' /\
  CartService.getCart w' u = Sent cart' /\
  (p ∉ (CartItem.productId <$> cart) -> cart' = cart ++ [CartItem.mk p q]) /\
  (p ∈ (CartItem.productId <$> cart) ->
   CartItem.productId <$> cart' = CartItem.productId <$> cart) /\
  units p cart' = units p cart + q /\
  (forall p', p' <> p -> units p' cart' = units p' cart) /\
  (exists product',
      ProductService.getProduct w' p = Sent product' /\
      Product.stock product' = Product.stock product - q) /\
  (forall q2 now2,
      q2 <= Product.stock product - q ->
      let (w'', reply2) := CartService.addItem w' u p q2 now2 in
      exists cart'',
        reply2 = Sent cart'' /\
        CartService.getCart w'' u = Sent cart'' /\
        units p cart'' = units p cart + q + q2 /\
        (p ∉ (CartItem.productId <$> cart) ->
         cart'' = cart ++ [CartItem.mk p (q + q2)]) /\
        exists product'',
          ProductService.getProduct w'' p = Sent product'' /\
          Product.stock product'' = Product.stock product - q - q2).
Proof.
  intros Hget Hkey Hle cart cart'.
  rewrite (addItem_in_stock _ _ _ _ _ _ Hget Hkey Hle). fold cart cart'.
  set (product' := Product.withStock product (Product.stock product - q)).
  set (w' := setProducts _ _).
  assert (Hget' : products w' !! p = Some product')
    by (subst w'; cbn; by rewrite lookup_insert_eq).
  assert (Hread' : CartService.readCart w' u = cart')
    by (subst w'; unfold CartService.readCart; cbn; by rewrite lookup_insert_eq).
  repeat split.
  - unfold CartService.getCart. by rewrite Hread'.
  - apply merge_absent.
  - apply merge_ids_present.
  - apply units_merge.
  - intros p' Hne. by apply units_merge_other.
  - exists product'. unfold ProductService.getProduct. by rewrite Hget'.
  - intros q2 now2 Hle2.
    rewrite (addItem_in_stock w' u p q2 now2 product' Hget' Hkey Hle2).
    rewrite Hread'. exists (merge p q2 cart'). repeat split.
    + unfold CartService.getCart, CartService.readCart. cbn.
      by rewrite lookup_insert_eq.
    + subst cart'. by rewrite !units_merge.
    + subst cart'. apply merge_twice_absent.
    + exists (Product.withStock product' (Product.stock product' - q2)).
      unfold ProductService.getProduct. cbn. rewrite lookup_insert_eq.
      split; [done|]. cbn. lia.
Qed.

(** C3. POST /api/cart/:userId/add for a product whose stock is below the
    requested quantity answers 400 "Insufficient stock" and writes nothing:
    the three tables, hence the user's cart and the product's stock, are as
    before. *)
Theorem addItem_insufficient_stock w u p q now product :
  products w !! p = Some product ->
  q > Product.stock product ->
  CartService.addItem w u p q now = (w, Failed 400 "Insufficient stock").
Proof.
  intros Hget Hgt. unfold CartService.addItem, ProductService.getProduct.
  rewrite Hget. destruct (Z.ltb_spec (Product.stock product) q) as [_|Hge]; [done|lia].
Qed.

(** C8. GET /api/cart/:userId for a user without a record in the carts table
    answers 200 with the empty list. *)
Theorem getCart_no_record w u :
  carts w !! u = None ->
  CartService.getCart w u = Sent [].
Proof.
  intros Hnone. unfold CartService.getCart, CartService.readCart. by rewrite Hnone.
Qed.

(** The record DELETE /api/cart/:userId stores. *)
Lemma clearCart_record w u now :
  carts (fst (CartService.clearCart w u now)) !! u = Some (Cart.mk u (Cart.Items []) now).
Proof. cbn. by rewrite lookup_insert_eq. Qed.

(** C6, as the code has it.  DELETE /api/cart/:userId twice in sequence, at
    the times [t1] and [t2]: both calls answer [{ success: true }]; after
    each call the stored record of the user has [items = []] and
    GET /api/cart/:userId answers the empty list; the second call leaves the
    tables as a single call at [t2] would.  The stored record after the
    second call differs from the one after the first in [updatedAt] alone,
    which is [t2] instead of [t1]: the records are equal exactly when the two
    calls read the same time. *)
Theorem clearCart_twice w u t1 t2 :
  let (w1, reply1) := CartService.clearCart w u t1 in
  let (w2, reply2) := CartService.clearCart w1 u t2 in
  reply1 = Sent success_true /\
  reply2 = Sent success_true /\
  CartService.getCart w1 u = Sent [] /\
  CartService.getCart w2 u = Sent [] /\
  carts w1 !! u = Some (Cart.mk u (Cart.Items []) t1) /\
  carts w2 !! u = Some (Cart.mk u (Cart.Items []) t2) /\
  w2 = fst (CartService.clearCart w u t2) /\
  (carts w2 !! u = carts w1 !! u <-> t1 = t2).
Proof.
  cbn. unfold CartService.getCart, CartService.readCart,
    CartService.putCart, setCarts. cbn.
  rewrite insert_insert_eq, !lookup_insert_eq. cbn.
  repeat split; try done.
  - by intros [= ->].
  - by intros ->.
Qed.

End CartServiceProperties.

(** ** Cart service: what is stored under [items] *)
Section RawCartProperties.
Context {num : Type}.
Implicit Types (rw : RawWorld num) (w : World num) (u : string).

Lemma stored_array items :
  RawCart.isArray items || RawCart.falsy items = true ->
  exists l, RawCart.stored items = RawCart.Lines l.
Proof.
  unfold RawCart.stored. destruct items as [|l|v]; cbn; [by exists []|by exists l|].
  intros Hfalsy. apply negb_true_iff in Hfalsy. rewrite Hfalsy. by exists [].
Qed.

Lemma raw_setStock_carts rw p s : rcarts (fst (RawCartService.setStock rw p s)) = rcarts rw.
Proof.
  unfold RawCartService.setStock.
  by destruct (ProductService.setStock (catalog rw) p s).
Qed.

(** A record of the carts table after a request with an array or a falsy
    value as [items] is either the record that was there before the request
    or holds an array. *)
Lemma rawHandle_persists_arrays rw r u Item :
  arrayRequest r ->
  rcarts (rawHandle rw r) !! u = Some Item ->
  rcarts rw !! u = Some Item \/ exists l, RawCart.items Item = RawCart.Lines l.
Proof.
  destruct r as [u' p q now|u' items now|u' now]; cbn [rawHandle arrayRequest]; intros Hreq.
  - unfold RawCartService.addItem.
    destruct (ProductService.getProduct (catalog rw) p) as [product|]; [|by left].
    destruct (Product.stock product <? q); [by left|].
    destruct (RawCartService.readCart rw u') as [cart|v]; [|by left].
    set (rw1 := RawCartService.putCart _ rw).
    pose proof (raw_setStock_carts rw1 p (Product.stock product - q)) as Hcarts.
    destruct (RawCartService.setStock rw1 p _) as [rw2 [ok|status error]];
      cbn [fst] in *; rewrite Hcarts; subst rw1; cbn;
      (destruct (decide (u' = u)) as [->|Hne];
       [rewrite lookup_insert_eq; intros [= <-]; right; by eexists
       |rewrite lookup_insert_ne by done; by left]).
  - cbn. destruct (stored_array items Hreq) as [l Hl].
    destruct (decide (u' = u)) as [->|Hne].
    + rewrite lookup_insert_eq. intros [= <-]. right. by exists l.
    + rewrite lookup_insert_ne by done. by left.
  - cbn. destruct (decide (u' = u)) as [->|Hne].
    + rewrite lookup_insert_eq. intros [= <-]. right. by exists [].
    + rewrite lookup_insert_ne by done. by left.
Qed.

Lemma rawServe_persists_arrays rs : forall rw u Item,
  Forall arrayRequest rs ->
  rcarts (rawServe rw rs) !! u = Some Item ->
  rcarts rw !! u = Some Item \/ exists l, RawCart.items Item = RawCart.Lines l.
Proof.
  induction rs as [|r rs IH]; intros rw u Item Hreqs; cbn; [by left|].
  apply Forall_cons in Hreqs as [Hreq Hreqs].
  intros Hfinal. destruct (IH _ _ _ Hreqs Hfinal) as [Hmid|Hlist]; [|by right].
  by apply rawHandle_persists_arrays in Hmid.
Qed.

(** C9, as the code has it.  PUT /api/cart/:userId stores [items || []]
    without validating [items]: a body whose [items] is missing, null or
    another falsy value answers 200 and stores the record
    [{ userId, items: [], updatedAt }]; a truthy value that is not an array
    is stored as it came.  Add and clear always store an array.  So after
    any sequence of add, replace and clear requests in which the [items] of
    every replace body is an array or falsy, a record of the carts table
    that is not a record the table held before the sequence has an array as
    its [items]; when every record held an array at the start (in
    particular when the table was empty), every record holds an array
    afterwards, and GET /api/cart/:userId answers 200 with the stored array
    for a user with a record and with the empty array for a user without. *)
Theorem cart_items_list_unless_replaced :
  (forall rw u items now,
      RawCart.falsy items = true ->
      let (rw', reply) := RawCartService.replaceCart rw u items now in
      reply = Sent items /\
      rcarts rw' !! u = Some (RawCart.mk u (RawCart.Lines []) now)) /\
  (forall rw u v now,
      RawCart.truthy v = true ->
      let (rw', reply) := RawCartService.replaceCart rw u (RawCart.Other v) now in
      reply = Sent (RawCart.Other v) /\
      rcarts rw' !! u = Some (RawCart.mk u (RawCart.Other v) now) /\
      RawCartService.getCart rw' u = Sent (inr v)) /\
  (forall rw rs u Item,
      Forall arrayRequest rs ->
      rcarts (rawServe rw rs) !! u = Some Item ->
      rcarts rw !! u = Some Item \/ exists l, RawCart.items Item = RawCart.Lines l) /\
  (forall rw rs,
      (forall u Item, rcarts rw !! u = Some Item ->
                      RawCart.isArray (RawCart.items Item) = true) ->
      Forall arrayRequest rs ->
      forall u,
        match rcarts (rawServe rw rs) !! u with
        | Some Item =>
            exists l, RawCart.items Item = RawCart.Lines l /\
                      RawCartService.getCart (rawServe rw rs) u = Sent (inl l)
        | None => RawCartService.getCart (rawServe rw rs) u = Sent (inl [])
        end).
Proof.
  split; [|split; [|split]].
  - intros rw u items now Hfalsy. cbn. rewrite lookup_insert_eq.
    split; [done|]. do 2 f_equal. unfold RawCart.stored.
    destruct items as [|l|v]; cbn in *; [done|done|].
    apply negb_true_iff in Hfalsy. by rewrite Hfalsy.
  - intros rw u v now Htruthy. cbn.
    unfold RawCartService.getCart, RawCartService.readCart. cbn.
    rewrite lookup_insert_eq. cbn. unfold RawCart.stored. cbn. rewrite Htruthy. cbn.
    by rewrite Htruthy.
  - intros rw rs u Item Hreqs Hfinal. by eapply rawServe_persists_arrays.
  - intros rw rs Hstart Hreqs u.
    unfold RawCartService.getCart, RawCartService.readCart.
    destruct (rcarts (rawServe rw rs) !! u) as [Item|] eqn:Hfinal; [|done].
    destruct (rawServe_persists_arrays _ _ _ _ Hreqs Hfinal) as [Hold|[l Hl]].
    + specialize (Hstart u Item Hold).
      destruct (RawCart.items Item) as [|l|v] eqn:Hitems; [done| |done]. by exists l.
    + exists l. by rewrite Hl.
Qed.

(** On tables and bodies of the data model's shape the handlers on raw
    records do what the handlers of [CartService] do. *)
Lemma orEmpty_ofItems (items : Cart.ItemsAttr) :
  RawCart.orEmpty (RawCart.ofItems items) = inl (Cart.orEmpty items).
Proof. by destruct items. Qed.

Lemma raw_getCart_typed w u :
  RawCartService.getCart (rawOf w) u = Sent (inl (CartService.readCart w u)).
Proof.
  unfold RawCartService.getCart, RawCartService.readCart, CartService.readCart. cbn.
  rewrite lookup_fmap. destruct (carts w !! u) as [Item|]; cbn; [|done].
  by rewrite orEmpty_ofItems.
Qed.

Lemma raw_replaceCart_typed w u items now :
  RawCartService.replaceCart (rawOf w) u (RawCart.ofItems items) now =
    (rawOf (fst (CartService.replaceCart w u items now)), Sent (RawCart.ofItems items)).
Proof.
  unfold RawCartService.replaceCart, CartService.replaceCart, rawOf,
    RawCartService.putCart. cbn. rewrite fmap_insert. do 3 f_equal.
  unfold RawCart.ofCart, RawCart.stored. cbn. by rewrite orEmpty_ofItems.
Qed.

Lemma raw_clearCart_typed w u now :
  RawCartService.clearCart (rawOf w) u now =
    (rawOf (fst (CartService.clearCart w u now)), Sent success_true).
Proof.
  unfold RawCartService.clearCart, CartService.clearCart, rawOf,
    RawCartService.putCart. cbn. by rewrite fmap_insert.
Qed.

Lemma raw_addItem_typed w u p q now :
  RawCartService.addItem (rawOf w) u p q now =
    (rawOf (fst (CartService.addItem w u p q now)), snd (CartService.addItem w u p q now)).
Proof.
  unfold RawCartService.addItem, CartService.addItem, ProductService.getProduct. cbn.
  destruct (products w !! p) as [product|] eqn:Hget; [|done].
  destruct (Product.stock product <? q); [done|].
  pose proof (raw_getCart_typed w u) as Hread.
  unfold RawCartService.getCart in Hread. injection Hread as ->.
  unfold RawCartService.setStock, ProductService.setStock. cbn. rewrite Hget. cbn.
  unfold rawOf. cbn. by rewrite fmap_insert.
Qed.

Lemma raw_serve_typed rs : forall w,
  rawServe (rawOf w) (rawRequest <$> rs) = rawOf (serve w rs).
Proof.
  induction rs as [|r rs IH]; intros w; [done|].
  change (serve w (r :: rs)) with (serve (handle w r) rs). rewrite <- IH.
  rewrite fmap_cons.
  change (rawServe (rawOf w) (rawRequest r :: (rawRequest <$> rs)))
    with (rawServe (rawHandle (rawOf w) (rawRequest r)) (rawRequest <$> rs)).
  f_equal. destruct r as [u p q now|u items now|u now]; cbn [rawRequest rawHandle handle].
  - by rewrite raw_addItem_typed.
  - by rewrite raw_replaceCart_typed.
  - by rewrite raw_clearCart_typed.
Qed.
End RawCartProperties.

(** ** Order service *)

Section OrderServiceProperties.
Context {num : Type} `{Number num}.
Implicit Types (w : World num) (cart : list CartItem.t) (u : string).

(** The loop over a cart whose products are all in the catalog runs to its
    end, pushes one line per cart line and adds the line totals to [total]. *)
Lemma orderLoop_total w cart : forall total orderItems,
  (forall item, item ∈ cart -> is_Some (products w !! CartItem.productId item)) ->
  exists lines,
    OrderService.orderLoop w cart total orderItems =
      Some (foldl (fun total line => num_add total (Order.itemTotal line)) total lines,
            orderItems ++ lines) /\
    Forall2 (lineOf w) cart lines.
Proof.
  induction cart as [|item rest IH]; intros total orderItems Hall.
  - exists []. cbn. by rewrite app_nil_r.
  - destruct (Hall item) as [product Hget]; [by left|].
    set (line := OrderService.orderItem product item).
    destruct (IH (num_add total (Order.itemTotal line)) (orderItems ++ [line]))
      as (lines & Hloop & Hlines).
    { intros item' Hin. apply Hall. by right. }
    exists (line :: lines). split.
    + cbn [OrderService.orderLoop]. unfold ProductService.getProduct.
      rewrite Hget. fold line. rewrite Hloop. cbn. by rewrite <- app_assoc.
    + constructor; [|done]. by exists product.
Qed.


(** A cart has one list of order lines at a given catalog. *)
Lemma lineOf_functional w cart : forall lines1 lines2,
  Forall2 (lineOf w) cart lines1 ->
  Forall2 (lineOf w) cart lines2 ->
  lines1 = lines2.
Proof.
  induction cart as [|item rest IH]; intros lines1 lines2 H1 H2.
  - apply Forall2_nil_inv_l in H1, H2. by subst.
  - apply Forall2_cons_inv_l in H1 as (line1 & rest1 & (p1 & Hp1 & ->) & H1 & ->).
    apply Forall2_cons_inv_l in H2 as (line2 & rest2 & (p2 & Hp2 & ->) & H2 & ->).
    rewrite Hp1 in Hp2. injection Hp2 as <-. f_equal. by apply IH.
Qed.


End OrderServiceProperties.

(** ** Frontend service *)
Section FrontendProperties.
Context {num : Type}.
Implicit Types (w : World num) (cart : list CartItem.t).

Lemma find_absent cart p :
  p ∉ (CartItem.productId <$> cart) ->
  Frontend.find (CartService.hasProductId p) cart = None.
Proof.
  induction cart as [|item rest IH]; [done|]. cbn. intros Hnot.
  apply not_elem_of_cons in Hnot as [Hne Hrest].
  unfold CartService.hasProductId at 1.
  rewrite bool_decide_eq_false_2 by congruence. by apply IH.
Qed.

(** C10. POST /cart/update/:id for a product that no line of the user's cart
    names: the three tables (every cart, every product and its stock, every
    order) are as before, and the browser is redirected to /cart.  The
    session is as before as well when it already holds the user's
    identifier; a session without one receives the generated identifier. *)
Theorem cartUpdate_absent_product w session fresh p newQuantity now :
  p ∉ (CartItem.productId <$> CartService.readCart w (fst (Frontend.getUserId session fresh))) ->
  Frontend.cartUpdate w session fresh p newQuantity now =
    (w, snd (Frontend.getUserId session fresh), Frontend.Redirect "/cart") /\
  (forall id, Frontend.userId session = Some id ->
              Frontend.cartUpdate w session fresh p newQuantity now =
                (w, session, Frontend.Redirect "/cart")).
Proof.
  intros Hnot.
  assert (Hfirst : Frontend.cartUpdate w session fresh p newQuantity now =
            (w, snd (Frontend.getUserId session fresh), Frontend.Redirect "/cart")).
  { unfold Frontend.cartUpdate.
    destruct (Frontend.getUserId session fresh) as [userId session'] eqn:Hid.
    cbn in Hnot. unfold Frontend.tryCartUpdate, CartService.getCart.
    by rewrite (find_absent _ _ Hnot). }
  split; [done|]. intros id Hsome. rewrite Hfirst.
  unfold Frontend.getUserId. by rewrite Hsome.
Qed.
End FrontendProperties.

(** ** The products table stays keyed by [id] *)
Section Keyed.
Context {num : Type} `{Number num}.
Implicit Types (w : World num).

Lemma keyed_same_products w w' : products w' = products w -> keyed w -> keyed w'.
Proof. intros Heq Hkeyed k Item. rewrite Heq. apply Hkeyed. Qed.

Lemma addItem_keyed w u p q now :
  keyed w -> keyed (fst (CartService.addItem w u p q now)).
Proof.
  intros Hkeyed. unfold CartService.addItem.
  destruct (ProductService.getProduct w p) as [product|]; [|done].
  destruct (Product.stock product <? q); [done|].
  set (w1 := CartService.putCart _ w).
  assert (Hkeyed1 : keyed w1) by by apply (keyed_same_products w).
  pose proof (setStock_keyed w1 p (Product.stock product - q) Hkeyed1) as Hkeyed2.
  by destruct (ProductService.setStock w1 p _) as [w2 [|]].
Qed.

Lemma handle_keyed w r : keyed w -> keyed (handle w r).
Proof.
  destruct r as [u p q now|u items now|u now]; cbn [handle].
  - apply addItem_keyed.
  - by apply keyed_same_products.
  - by apply keyed_same_products.
Qed.

Lemma serve_keyed rs : forall w, keyed w -> keyed (serve w rs).
Proof.
  induction rs as [|r rs IH]; intros w Hkeyed; [done|].
  cbn. by apply IH, handle_keyed.
Qed.

Lemma createOrder_keyed w u customer orderId date clearedAt :
  keyed w -> keyed (fst (OrderService.createOrder w u customer orderId date clearedAt)).
Proof.
  intros Hkeyed. unfold OrderService.createOrder, CartService.getCart.
  destruct (length _ =? 0)%nat; [done|].
  destruct (OrderService.orderLoop w _ num_zero []) as [[total orderItems]|]; [|done].
  cbn [CartService.clearCart].
  destruct (num_nonneg total); by apply (keyed_same_products w).
Qed.

Lemma cartUpdate_keyed w session fresh p newQuantity now :
  keyed w -> keyed (fst (fst (Frontend.cartUpdate w session fresh p newQuantity now))).
Proof.
  intros Hkeyed. unfold Frontend.cartUpdate.
  destruct (Frontend.getUserId session fresh) as [userId session'].
  assert (Htry : keyed (fst (Frontend.tryCartUpdate w userId p newQuantity now))).
  { unfold Frontend.tryCartUpdate, CartService.getCart.
    destruct (Frontend.find _ _) as [currentItem|]; [|done].
    destruct (newQuantity <=? 0);
      (destruct (ProductService.getProduct w p) as [product|]; [|done]);
      match goal with
      | |- context [ProductService.setStock w p ?s] =>
          pose proof (setStock_keyed w p s Hkeyed) as Hkeyed1;
          destruct (ProductService.setStock w p s) as [w1 [|]]; [|done]
      end;
      by apply (keyed_same_products w1). }
  by destruct (Frontend.tryCartUpdate w userId p newQuantity now) as [w' [page|]].
Qed.
End Keyed.

Lemma initializeProducts_keyed w : keyed w -> keyed (ProductService.initializeProducts w).
Proof.
  intros Hkeyed. unfold ProductService.initializeProducts.
  destruct (decide (products w = ∅)) as [_|_]; [|done].
  generalize ProductService.sampleProducts. intros l. revert w Hkeyed.
  induction l as [|product l IH]; intros w Hkeyed; [done|].
  cbn. by apply IH, putProduct_keyed.
Qed.

Lemma seeded_keyed : keyed seeded.
Proof. apply initializeProducts_keyed. intros k Item. cbn. by rewrite lookup_empty. Qed.

(** ** Missing products at checkout *)
Section MissingProduct.
Context {num : Type} `{Number num}.

End MissingProduct.

(** * The properties on the sample catalog *)

(** The scenario of the specification: two units of the product 1 are added
    for [u1], then [u1] checks out. *)
Example scenario_add_then_order :
  let (w1, added) := CartService.addItem seeded "u1" 1 2 noon in
  let (w2, ordered) := OrderService.createOrder w1 "u1" alice "order-1" noon later in
  added = Sent [CartItem.mk 1 2] /\
  (Product.stock <$> products w1 !! 1) = Some 48 /\
  (exists order,
      ordered = Sent order /\
      Order.total order = (139998 # 100)%Q /\
      (Order.itemTotal <$> Order.items order) = [(139998 # 100)%Q]) /\
  CartService.getCart w2 "u1" = Sent [].
Proof. vm_compute. repeat split. eexists. repeat split. Qed.

Example scenario_unknown_product :
  ProductService.getProduct seeded 999 = Failed 404 "Product not found".
Proof. reflexivity. Qed.

(** The product 1 of the sample catalog gets the stock 7; nothing is stored
    under 999. *)
Lemma setStock_rewrites_only_stock_witness :
  (products seeded !! 1 = Some phone /\ Product.id phone = 1 /\
   exists Item',
     products (fst (ProductService.setStock seeded 1 7)) !! 1 = Some Item' /\
     Product.stock Item' = 7 /\ Product.name Item' = "Smartphone X12 Pro") /\
  (products seeded !! 999 = None /\
   ProductService.setStock seeded 999 7 = (seeded, Failed 404 "Product not found")).
Proof.
  assert (Hget : products seeded !! 1 = Some phone) by (vm_compute; reflexivity).
  assert (Hkey : Product.id phone = 1) by reflexivity.
  assert (Hnone : products seeded !! 999 = None) by (vm_compute; reflexivity).
  split.
  - split; [exact Hget|]. split; [exact Hkey|].
    pose proof (proj1 (setStock_rewrites_only_stock seeded 1 7) phone Hget Hkey) as Hthm.
    destruct (ProductService.setStock seeded 1 7) as [w' reply].
    destruct Hthm as (_ & (Item' & Hstored & Hstock & _ & Hname & _) & _).
    exists Item'. split; [exact Hstored|]. split; [exact Hstock|exact Hname].
  - split; [exact Hnone|].
    exact (proj2 (setStock_rewrites_only_stock seeded 999 7) Hnone).
Defined.

(** The stock of the product 1 is set to 7 and read back. *)
Lemma getProduct_after_setStock_witness :
  products seeded !! 1 = Some phone /\ Product.id phone = 1 /\
  let (w', reply) := ProductService.setStock seeded 1 7 in
  reply = Sent success_true /\
  exists product,
    ProductService.getProduct w' 1 = Sent product /\ Product.stock product = 7.
Proof.
  assert (Hget : products seeded !! 1 = Some phone) by (vm_compute; reflexivity).
  assert (Hkey : Product.id phone = 1) by reflexivity.
  split; [exact Hget|]. split; [exact Hkey|].
  exact (getProduct_after_setStock seeded 1 7 phone Hget Hkey).
Defined.

(** Two units, then three more, of the product 1 for [u1], whose cart
    starts empty. *)
Lemma addItem_merges_and_decrements_witness :
  products seeded !! 1 = Some phone /\ Product.id phone = 1 /\ 2 <= Product.stock phone /\
  let (w', reply) := CartService.addItem seeded "u1" 1 2 noon in
  CartService.getCart w' "u1" = Sent (merge 1 2 (CartService.readCart seeded "u1")) /\
  let (w'', reply2) := CartService.addItem w' "u1" 1 3 later in
  exists cart'',
    CartService.getCart w'' "u1" = Sent cart'' /\
    units 1 cart'' = units 1 (CartService.readCart seeded "u1") + 2 + 3.
Proof.
  assert (Hget : products seeded !! 1 = Some phone) by (vm_compute; reflexivity).
  assert (Hkey : Product.id phone = 1) by reflexivity.
  assert (Hle : 2 <= Product.stock phone) by (cbn; lia).
  split; [exact Hget|]. split; [exact Hkey|]. split; [exact Hle|].
  pose proof (addItem_merges_and_decrements seeded "u1" 1 2 noon phone Hget Hkey Hle) as Hthm.
  cbv zeta in Hthm.
  destruct (CartService.addItem seeded "u1" 1 2 noon) as [w' reply].
  destruct Hthm as (_ & Hcart & _ & _ & _ & _ & _ & Hsecond).
  split; [exact Hcart|].
  assert (Hle2 : 3 <= Product.stock phone - 2) by (cbn; lia).
  specialize (Hsecond 3 later Hle2).
  destruct (CartService.addItem w' "u1" 1 3 later) as [w'' reply2].
  destruct Hsecond as (cart'' & _ & Hcart'' & Hunits & _).
  exists cart''. split; [exact Hcart''|exact Hunits].
Defined.

(** Fifty-one units of the product 1, of which fifty are in stock. *)
Lemma addItem_insufficient_stock_witness :
  products seeded !! 1 = Some phone /\ 51 > Product.stock phone /\
  CartService.addItem seeded "u1" 1 51 noon = (seeded, Failed 400 "Insufficient stock").
Proof.
  assert (Hget : products seeded !! 1 = Some phone) by (vm_compute; reflexivity).
  assert (Hgt : 51 > Product.stock phone) by (cbn; lia).
  split; [exact Hget|]. split; [exact Hgt|].
  exact (addItem_insufficient_stock seeded "u1" 1 51 noon phone Hget Hgt).
Defined.

(** No cart was ever stored for [u1] in the seeded tables. *)
Lemma getCart_no_record_witness :
  carts seeded !! "u1" = None /\ CartService.getCart seeded "u1" = Sent [].
Proof.
  assert (Hnone : carts seeded !! "u1" = None) by (vm_compute; reflexivity).
  split; [exact Hnone|]. exact (getCart_no_record seeded "u1" Hnone).
Defined.

(** C6, as stated, fails: two clears of the cart of [u1] a quarter of a
    second apart leave records that differ in [updatedAt]. *)
Lemma clearCart_twice_records_differ :
  let w1 := fst (CartService.clearCart seeded "u1" noon) in
  let w2 := fst (CartService.clearCart w1 "u1" later) in
  carts w1 !! "u1" = Some (Cart.mk "u1" (Cart.Items []) noon) /\
  carts w2 !! "u1" = Some (Cart.mk "u1" (Cart.Items []) later) /\
  carts w2 !! "u1" <> carts w1 !! "u1".
Proof.
  cbv zeta. rewrite !clearCart_record. repeat split. intros Heq. discriminate Heq.
Qed.

(** C9, as stated, fails: PUT /api/cart/u1 with the body [{ "items": "x" }]
    stores the string under [items], and GET /api/cart/u1 then answers the
    string, which is not a list. *)
Lemma replaceCart_stores_non_array :
  let rw := rawServe (rawOf seeded)
              [RawReplaceCart "u1" (RawCart.Other (RawCart.NString "x")) noon] in
  rcarts rw !! "u1" =
    Some (RawCart.mk "u1" (RawCart.Other (RawCart.NString "x")) noon) /\
  RawCartService.getCart rw "u1" = Sent (inr (RawCart.NString "x")) /\
  ~ (exists l, RawCartService.getCart rw "u1" = Sent (inl l)).
Proof.
  cbv zeta.
  assert (Hget : RawCartService.getCart
            (rawServe (rawOf seeded)
               [RawReplaceCart "u1" (RawCart.Other (RawCart.NString "x")) noon]) "u1" =
            Sent (inr (RawCart.NString "x"))) by (vm_compute; reflexivity).
  split; [vm_compute; reflexivity|]. split; [exact Hget|].
  intros [l Hl]. rewrite Hget in Hl. discriminate Hl.
Qed.

(** PUT /api/cart/u1 without [items], then with null, an add and a clear for
    other users, from the sample catalog. *)
Lemma cart_items_list_unless_replaced_witness :
  (RawCart.falsy RawCart.Missing = true /\
   rcarts (fst (RawCartService.replaceCart (rawOf seeded) "u1" RawCart.Missing noon)) !! "u1" =
     Some (RawCart.mk "u1" (RawCart.Lines []) noon)) /\
  (RawCart.truthy (RawCart.NString "x") = true /\
   rcarts (fst (RawCartService.replaceCart (rawOf seeded) "u1"
                  (RawCart.Other (RawCart.NString "x")) noon)) !! "u1" =
     Some (RawCart.mk "u1" (RawCart.Other (RawCart.NString "x")) noon)) /\
  (forall u Item, rcarts (rawOf seeded) !! u = Some Item ->
                  RawCart.isArray (RawCart.items Item) = true) /\
  Forall arrayRequest
    [RawReplaceCart "u1" (RawCart.Other RawCart.NNull) noon; RawAddItem "u1" 1 2 noon;
     RawClearCart "u3" later] /\
  RawCartService.getCart
    (rawServe (rawOf seeded)
       [RawReplaceCart "u1" (RawCart.Other RawCart.NNull) noon; RawAddItem "u1" 1 2 noon;
        RawClearCart "u3" later]) "u1" = Sent (inl [CartItem.mk 1 2]).
Proof.
  destruct (@cart_items_list_unless_replaced Q) as (Hfalsy & Htruthy & _ & Hserve).
  assert (Hstart : forall u Item, rcarts (rawOf seeded) !! u = Some Item ->
                                  RawCart.isArray (RawCart.items Item) = true).
  { intros u Item. change (rcarts (rawOf seeded)) with (∅ : gmap string RawCart.t).
    rewrite lookup_empty. discriminate. }
  assert (Hreqs : Forall arrayRequest
            [RawReplaceCart "u1" (RawCart.Other RawCart.NNull) noon;
             RawAddItem "u1" 1 2 noon; RawClearCart "u3" later]).
  { apply Forall_cons_2; [reflexivity|]. apply Forall_cons_2; [exact I|].
    apply Forall_cons_2; [exact I|]. apply Forall_nil_2. }
  split; [|split; [|split; [exact Hstart|split; [exact Hreqs|]]]].
  - split; [reflexivity|].
    pose proof (Hfalsy (rawOf seeded) "u1" RawCart.Missing noon eq_refl) as Hthm.
    destruct (RawCartService.replaceCart (rawOf seeded) "u1" RawCart.Missing noon)
      as [rw' reply].
    exact (proj2 Hthm).
  - split; [reflexivity|].
    pose proof (Htruthy (rawOf seeded) "u1" (RawCart.NString "x") noon eq_refl) as Hthm.
    destruct (RawCartService.replaceCart (rawOf seeded) "u1"
                (RawCart.Other (RawCart.NString "x")) noon) as [rw' reply].
    exact (proj1 (proj2 Hthm)).
  - pose proof (Hserve (rawOf seeded) _ Hstart Hreqs "u1") as Hthm.
    destruct (rcarts _ !! "u1") as [Item|] eqn:Hrec.
    + destruct Hthm as (l & Hl & Hget). vm_compute in Hrec.
      injection Hrec as <-. injection Hl as <-. exact Hget.
    + vm_compute in Hrec. discriminate Hrec.
Defined.




(** The cart of [u1] holds the product 1 only; the quantity of the product 2
    is updated. *)
Lemma cartUpdate_absent_product_witness :
  let w := fst (CartService.addItem seeded "u1" 1 1 noon) in
  (2 ∉ (CartItem.productId <$>
          CartService.readCart w (fst (Frontend.getUserId session_u1 "fresh")))) /\
  Frontend.cartUpdate w session_u1 "fresh" 2 5 later =
    (w, session_u1, Frontend.Redirect "/cart").
Proof.
  set (w := fst (CartService.addItem seeded "u1" 1 1 noon)). cbv zeta.
  assert (Hnot : 2 ∉ (CartItem.productId <$>
             CartService.readCart w (fst (Frontend.getUserId session_u1 "fresh")))).
  { assert (Hids : CartItem.productId <$>
               CartService.readCart w (fst (Frontend.getUserId session_u1 "fresh")) = [1])
      by (vm_compute; reflexivity).
    rewrite Hids. intros Hin. apply list_elem_of_singleton in Hin. discriminate Hin. }
  split; [exact Hnot|].
  exact (proj2 (cartUpdate_absent_product w session_u1 "fresh" 2 5 later Hnot) "u1" eq_refl).
Defined.

(** * Further properties of the services *)

(** ** Product service: seeding, listing, repeated stock writes *)
Section CatalogProperties.
Context {num : Type}.
Implicit Types (w : World num) (Item product : Product.t num).

(** Storing a list of products with distinct identifiers, none of them in
    the table yet, adds exactly these products to the table. *)
Lemma put_all_listed (l : list (Product.t num)) : forall w,
  NoDup (Product.id <$> l) ->
  (forall product, product ∈ l -> products w !! Product.id product = None) ->
  snd <$> map_to_list (products (foldl (fun w product => ProductService.putProduct product w) w l))
    ≡ₚ (snd <$> map_to_list (products w)) ++ l.
Proof.
  induction l as [|a l IH]; intros w Hnodup Hfresh; cbn.
  - by rewrite app_nil_r.
  - apply NoDup_cons in Hnodup as [Hnotin Hnodup].
    rewrite IH; [|done|].
    + cbn. rewrite map_to_list_insert by (apply Hfresh; by left).
      cbn. by rewrite <- Permutation_middle.
    + intros product Hin. cbn. rewrite lookup_insert_ne.
      * apply Hfresh. by right.
      * intros Heq. apply Hnotin. rewrite Heq. by apply list_elem_of_fmap_2.
Qed.

Lemma put_all_other (l : list (Product.t num)) : forall w k,
  k ∉ (Product.id <$> l) ->
  products (foldl (fun w product => ProductService.putProduct product w) w l) !! k =
    products w !! k.
Proof.
  induction l as [|a l IH]; intros w k Hnotin; cbn; [done|].
  apply not_elem_of_cons in Hnotin as [Hne Hnotin].
  rewrite IH by done. cbn. by rewrite lookup_insert_ne.
Qed.

Lemma put_all_lookup (l : list (Product.t num)) : forall w product,
  NoDup (Product.id <$> l) ->
  product ∈ l ->
  products (foldl (fun w product => ProductService.putProduct product w) w l)
    !! Product.id product = Some product.
Proof.
  induction l as [|a l IH]; intros w product Hnodup Hin; cbn.
  - by apply elem_of_nil in Hin.
  - apply NoDup_cons in Hnodup as [Hnotin Hnodup].
    apply elem_of_cons in Hin as [->|Hin]; [|by apply IH].
    rewrite put_all_other by done. cbn. by rewrite lookup_insert_eq.
Qed.

(** Two stock writes in a row leave what the second alone would leave: the
    last writer wins.  Writing the stock the record already has leaves the
    tables as they are. *)
Theorem setStock_last_write_wins w id s1 s2 Item :
  products w !! id = Some Item ->
  Product.id Item = id ->
  ProductService.setStock (fst (ProductService.setStock w id s1)) id s2 =
    ProductService.setStock w id s2 /\
  ProductService.setStock w id (Product.stock Item) = (w, Sent success_true).
Proof.
  intros Hget Hkey. split.
  - rewrite (setStock_present w id s1 Item Hget Hkey). cbn [fst].
    rewrite (setStock_present _ id s2 (Product.withStock Item s1)); [|cbn; by rewrite lookup_insert_eq|done].
    rewrite (setStock_present w id s2 Item Hget Hkey).
    unfold setProducts. cbn. by rewrite insert_insert_eq.
  - rewrite (setStock_present w id _ Item Hget Hkey).
    replace (Product.withStock Item (Product.stock Item)) with Item by by destruct Item.
    rewrite insert_id by done. by destruct w.
Qed.

Lemma listProducts_elem w product :
  product ∈ (snd <$> map_to_list (products w)) <-> exists k, products w !! k = Some product.
Proof.
  rewrite list_elem_of_fmap. split.
  - intros ([k x] & -> & Hin). exists k. by apply elem_of_map_to_list.
  - intros [k Hget]. exists (k, product). split; [done|]. by apply elem_of_map_to_list.
Qed.

(** After a stock write for a product of a keyed table, the product list
    holds the rewritten record, and besides it exactly the records of the
    other products: no second record of the product, no stale copy. *)
Theorem listProducts_after_setStock w id s Item :
  keyed w ->
  products w !! id = Some Item ->
  exists before after,
    ProductService.listProducts w = Sent before /\
    ProductService.listProducts (fst (ProductService.setStock w id s)) = Sent after /\
    length after = length before /\
    forall product,
      product ∈ after <->
      product = Product.withStock Item s \/ (product ∈ before /\ Product.id product <> id).
Proof.
  intros Hkeyed Hget. pose proof (Hkeyed _ _ Hget) as Hkey.
  eexists _, _. split; [done|]. split; [done|].
  rewrite (setStock_present w id s Item Hget Hkey). cbn [fst].
  split.
  - rewrite !length_fmap, !length_map_to_list. cbn.
    rewrite <- (insert_delete_id (products w) id Item Hget) at 2.
    rewrite <- (insert_delete_eq (products w)).
    rewrite !map_size_insert_None by apply lookup_delete_eq. done.
  - intros product. rewrite !listProducts_elem. cbn. split.
    + intros [k Hk]. destruct (decide (id = k)) as [<-|Hne].
      * rewrite lookup_insert_eq in Hk. left. congruence.
      * rewrite lookup_insert_ne in Hk by done. right. split; [by exists k|].
        rewrite (Hkeyed _ _ Hk). congruence.
    + intros [->|[[k Hk] Hne]].
      * exists id. by rewrite lookup_insert_eq.
      * exists k. rewrite lookup_insert_ne; [done|].
        intros <-. apply Hne. by apply Hkeyed in Hk.
Qed.
End CatalogProperties.

Lemma sampleProducts_distinct : NoDup (Product.id <$> ProductService.sampleProducts).
Proof. compute_done. Qed.

(** The first boot: on an empty products table the seeding stores the
    sample catalog, each product readable under its [id] and the product
    list holding the sample products and nothing else; carts and orders are
    not touched. *)
Theorem initializeProducts_first_boot (w : World Q) :
  products w = ∅ ->
  let w' := ProductService.initializeProducts w in
  (forall product,
      product ∈ ProductService.sampleProducts ->
      ProductService.getProduct w' (Product.id product) = Sent product) /\
  (exists l, ProductService.listProducts w' = Sent l /\ l ≡ₚ ProductService.sampleProducts) /\
  keyed w' /\
  carts w' = carts w /\
  orders w' = orders w.
Proof.
  intros Hempty. cbv zeta. unfold ProductService.initializeProducts.
  rewrite decide_True by done.
  split; [|split; [|split; [|split]]].
  - intros product Hin. unfold ProductService.getProduct.
    by rewrite (put_all_lookup _ _ _ sampleProducts_distinct Hin).
  - eexists. split; [done|].
    rewrite put_all_listed.
    + by rewrite Hempty, map_to_list_empty.
    + apply sampleProducts_distinct.
    + intros product _. by rewrite Hempty, lookup_empty.
  - pose proof (initializeProducts_keyed w) as Hkeyed.
    unfold ProductService.initializeProducts in Hkeyed.
    rewrite decide_True in Hkeyed by done. apply Hkeyed.
    intros k Item. by rewrite Hempty, lookup_empty.
  - generalize ProductService.sampleProducts. intros l. clear Hempty. revert w.
    induction l as [|a l IH]; intros w; [done|]. cbn. by rewrite IH.
  - generalize ProductService.sampleProducts. intros l. clear Hempty. revert w.
    induction l as [|a l IH]; intros w; [done|]. cbn. by rewrite IH.
Qed.

(** Seeding is done once: a table that holds a product is left as it is,
    and a second run of the seeding after a first changes nothing. *)
Theorem initializeProducts_idempotent (w : World Q) :
  (products w <> ∅ -> ProductService.initializeProducts w = w) /\
  ProductService.initializeProducts (ProductService.initializeProducts w) =
    ProductService.initializeProducts w.
Proof.
  assert (Hkeep : forall w0 : World Q,
             products w0 <> ∅ -> ProductService.initializeProducts w0 = w0).
  { intros w0 Hne. unfold ProductService.initializeProducts. by rewrite decide_False. }
  split; [apply Hkeep|].
  destruct (decide (products w = ∅)) as [Hempty|Hne].
  - apply Hkeep. intros Hafter.
    assert (Hin : phone ∈ ProductService.sampleProducts) by (by left).
    pose proof (put_all_lookup _ w phone sampleProducts_distinct Hin) as Hget.
    unfold ProductService.initializeProducts in Hafter.
    rewrite decide_True in Hafter by done.
    rewrite Hafter, lookup_empty in Hget. discriminate Hget.
  - rewrite (Hkeep w Hne). by apply Hkeep.
Qed.

(** ** Cart service: replace, frames, conservation, unique lines *)
Section MoreCartProperties.
Context {num : Type}.
Implicit Types (w : World num) (cart : list CartItem.t) (u : string) (p q : Z).

(** PUT /api/cart/:userId echoes the [items] of the body, even when they
    are missing or null, while the next GET /api/cart/:userId answers the
    list that was stored: the body's list, or the empty list.  No other
    cart, no product and no order is written. *)
Theorem replaceCart_then_getCart w u items now :
  let (w', reply) := CartService.replaceCart w u items now in
  reply = Sent items /\
  CartService.getCart w' u = Sent (Cart.orEmpty items) /\
  (forall u', u' <> u -> CartService.getCart w' u' = CartService.getCart w u') /\
  products w' = products w /\
  orders w' = orders w.
Proof.
  cbn. unfold CartService.getCart, CartService.readCart. cbn.
  rewrite lookup_insert_eq. split; [done|]. split; [done|]. split; [|done].
  intros u' Hne. by rewrite lookup_insert_ne.
Qed.

(** POST /api/cart/:userId/add for a product the catalog does not hold
    answers 500 "Failed to add to cart" (the 404 of the product service is
    not passed on) and writes nothing. *)
Theorem addItem_unknown_product w u p q now :
  products w !! p = None ->
  CartService.addItem w u p q now = (w, Failed 500 "Failed to add to cart").
Proof.
  intros Hnone. unfold CartService.addItem, ProductService.getProduct. by rewrite Hnone.
Qed.

(** The outcomes of the add handler, on a keyed table. *)
Lemma addItem_cases w u p q now :
  keyed w ->
  (exists status error, CartService.addItem w u p q now = (w, Failed status error)) \/
  (exists product,
      products w !! p = Some product /\
      CartService.addItem w u p q now =
        (setProducts
           (CartService.putCart
              (Cart.mk u (Cart.Items (merge p q (CartService.readCart w u))) now) w)
           (<[p := Product.withStock product (Product.stock product - q)]> (products w)),
         Sent (merge p q (CartService.readCart w u)))).
Proof.
  intros Hkeyed. destruct (products w !! p) as [product|] eqn:Hget.
  - destruct (Z.ltb_spec (Product.stock product) q) as [Hlt|Hge].
    + left. exists 400, "Insufficient stock".
      unfold CartService.addItem, ProductService.getProduct. rewrite Hget.
      by rewrite (proj2 (Z.ltb_lt _ _) Hlt).
    + right. exists product. split; [done|].
      apply addItem_in_stock; [done| |done]. by apply Hkeyed.
  - left. exists 500, "Failed to add to cart".
    unfold CartService.addItem, ProductService.getProduct. by rewrite Hget.
Qed.

(** POST /api/cart/:userId/add, whatever it answers, writes no cart but the
    user's, no product but the requested one, and no order. *)
Theorem addItem_frame w u p q now :
  keyed w ->
  let w' := fst (CartService.addItem w u p q now) in
  (forall u', u' <> u -> carts w' !! u' = carts w !! u') /\
  (forall p', p' <> p -> products w' !! p' = products w !! p') /\
  orders w' = orders w.
Proof.
  intros Hkeyed. cbv zeta.
  destruct (addItem_cases w u p q now Hkeyed) as [(status & error & ->)|(product & _ & ->)];
    [done|]. cbn. split; [|split; [|done]].
  - intros u' Hne. by rewrite lookup_insert_ne.
  - intros p' Hne. by rewrite lookup_insert_ne.
Qed.

(** POST /api/cart/:userId/add moves units between the shelf and the cart:
    for every product, the stock plus the units in the user's cart is the
    same after the request as before, whatever the request answers. *)
Theorem addItem_conserves_units w u p q now :
  keyed w ->
  let w' := fst (CartService.addItem w u p q now) in
  forall p',
    (fun s => s + units p' (CartService.readCart w' u)) <$> stockOf w' p' =
    (fun s => s + units p' (CartService.readCart w u)) <$> stockOf w p'.
Proof.
  intros Hkeyed. cbv zeta.
  destruct (addItem_cases w u p q now Hkeyed) as [(status & error & ->)|(product & Hget & ->)];
    [done|]. intros p'. unfold stockOf, CartService.readCart at 1. cbn.
  rewrite lookup_insert_eq. cbn. destruct (decide (p' = p)) as [->|Hne].
  - rewrite lookup_insert_eq, Hget. cbn. rewrite units_merge. f_equal. lia.
  - rewrite lookup_insert_ne by done. by rewrite units_merge_other.
Qed.

Lemma merge_unique cart p q : uniqueLines cart -> uniqueLines (merge p q cart).
Proof.
  unfold uniqueLines. intros Hunique.
  destruct (decide (p ∈ (CartItem.productId <$> cart))) as [Hin|Hnotin].
  - by rewrite merge_ids_present.
  - rewrite merge_absent, fmap_app by done. cbn.
    apply NoDup_app. split; [done|]. split; [|apply NoDup_singleton].
    intros k Hk Hp. apply list_elem_of_singleton in Hp as ->. by apply Hnotin.
Qed.

(** The carts table after an add: as before, or with the merged cart stored
    for the user. *)
Lemma addItem_carts w u p q now :
  carts (fst (CartService.addItem w u p q now)) = carts w \/
  carts (fst (CartService.addItem w u p q now)) =
    <[u := Cart.mk u (Cart.Items (merge p q (CartService.readCart w u))) now]> (carts w).
Proof.
  unfold CartService.addItem.
  destruct (ProductService.getProduct w p) as [product|]; [|by left].
  destruct (Product.stock product <? q); [by left|].
  rewrite updateCart_merge. unfold ProductService.setStock. cbn.
  destruct (products w !! p); by right.
Qed.

Lemma handle_unique w r : uniqueCarts w -> uniqueRequest r -> uniqueCarts (handle w r).
Proof.
  intros Hunique Hreq u'. unfold CartService.readCart.
  destruct r as [u p q now|u items now|u now]; cbn [handle].
  - destruct (addItem_carts w u p q now) as [->| ->]; [apply Hunique|].
    destruct (decide (u = u')) as [->|Hne].
    + rewrite lookup_insert_eq. cbn. apply merge_unique, Hunique.
    + rewrite lookup_insert_ne by done. apply Hunique.
  - cbn. destruct (decide (u = u')) as [->|Hne].
    + by rewrite lookup_insert_eq.
    + rewrite lookup_insert_ne by done. apply Hunique.
  - cbn. destruct (decide (u = u')) as [->|Hne].
    + rewrite lookup_insert_eq. apply NoDup_nil_2.
    + rewrite lookup_insert_ne by done. apply Hunique.
Qed.

(** Merge-on-add keeps the lines of a cart unique.  When no stored cart has
    two lines for one product, none has after any sequence of adds, clears
    and replaces whose lists have unique lines themselves. *)
Theorem serve_unique_lines rs : forall w,
  uniqueCarts w ->
  Forall uniqueRequest rs ->
  uniqueCarts (serve w rs).
Proof.
  induction rs as [|r rs IH]; intros w Hunique Hreqs; [done|].
  apply Forall_cons in Hreqs as [Hreq Hreqs]. cbn.
  apply IH; [|done]. by apply handle_unique.
Qed.
End MoreCartProperties.

(** ** Order service: frames, retries, failures, the orders of a user *)
Section MoreOrderProperties.
Context {num : Type} `{Number num}.
Implicit Types (w : World num) (u : string).

(** The outcomes of the order handler: an answer before any write, or the
    order stored and the cart cleared, and then the answer the value counter
    lets through. *)
Lemma createOrder_cases w u customer orderId date clearedAt :
  (exists status error,
      OrderService.createOrder w u customer orderId date clearedAt =
        (w, Failed status error)) \/
  (exists total orderItems,
      CartService.readCart w u <> [] /\
      OrderService.orderLoop w (CartService.readCart w u) num_zero [] =
        Some (total, orderItems) /\
      let order := Order.mk orderId u date customer orderItems total "Confirmed" in
      OrderService.createOrder w u customer orderId date clearedAt =
        (CartService.putCart (Cart.mk u (Cart.Items []) clearedAt)
           (OrderService.putOrder order w),
         if num_nonneg total
         then Sent order
         else Failed 500 "Failed to create order")).
Proof.
  unfold OrderService.createOrder, CartService.getCart.
  destruct (CartService.readCart w u) as [|item rest] eqn:Hcart.
  - left. by exists 400, "Cart is empty".
  - cbn [length Nat.eqb].
    destruct (OrderService.orderLoop w (item :: rest) num_zero [])
      as [[total orderItems]|] eqn:Hloop.
    + right. exists total, orderItems. split; [done|]. split; [done|].
      cbn. by destruct (num_nonneg total).
    + left. by exists 500, "Failed to create order".
Qed.

(** What a checkout that answered 200 has done. *)
Lemma createOrder_sent w u customer orderId date clearedAt w' order :
  OrderService.createOrder w u customer orderId date clearedAt = (w', Sent order) ->
  exists total orderItems,
    OrderService.orderLoop w (CartService.readCart w u) num_zero [] =
      Some (total, orderItems) /\
    num_nonneg total = true /\
    order = Order.mk orderId u date customer orderItems total "Confirmed" /\
    w' = CartService.putCart (Cart.mk u (Cart.Items []) clearedAt)
           (OrderService.putOrder order w).
Proof.
  intros Hsent.
  destruct (createOrder_cases w u customer orderId date clearedAt)
    as [(status & error & Hfail)|(total & orderItems & _ & Hloop & Hok)].
  - rewrite Hfail in Hsent. discriminate Hsent.
  - cbv zeta in Hok. rewrite Hok in Hsent. exists total, orderItems.
    destruct (num_nonneg total); [|discriminate Hsent].
    injection Hsent as <- <-. done.
Qed.


(** A checkout that succeeded cannot be repeated by retrying: the cart is
    empty, so the next POST /api/orders of the user answers 400 "Cart is
    empty" and stores no second order. *)
Theorem createOrder_retry_empty_cart w u customer orderId date clearedAt w' order :
  OrderService.createOrder w u customer orderId date clearedAt = (w', Sent order) ->
  forall customer2 orderId2 date2 clearedAt2,
    OrderService.createOrder w' u customer2 orderId2 date2 clearedAt2 =
      (w', Failed 400 "Cart is empty").
Proof.
  intros Hfirst customer2 orderId2 date2 clearedAt2.
  destruct (createOrder_sent _ _ _ _ _ _ _ _ Hfirst)
    as (total & orderItems & _ & _ & _ & ->).
  unfold OrderService.createOrder, CartService.getCart, CartService.readCart.
  cbn. by rewrite lookup_insert_eq.
Qed.

(** The checkout whose total the value counter rejects. *)
Lemma createOrder_rejected w u customer orderId date clearedAt :
  CartService.readCart w u <> [] ->
  (forall item, item ∈ CartService.readCart w u ->
                is_Some (products w !! CartItem.productId item)) ->
  (forall lines, Forall2 (lineOf w) (CartService.readCart w u) lines ->
                 num_nonneg (sumTotals lines) = false) ->
  exists lines,
    Forall2 (lineOf w) (CartService.readCart w u) lines /\
    OrderService.createOrder w u customer orderId date clearedAt =
      (CartService.putCart (Cart.mk u (Cart.Items []) clearedAt)
         (OrderService.putOrder
            (Order.mk orderId u date customer lines (sumTotals lines) "Confirmed") w),
       Failed 500 "Failed to create order").
Proof.
  intros Hnonempty Hall Htotal.
  destruct (orderLoop_total w _ num_zero [] Hall) as (lines & Hloop & Hlines).
  specialize (Htotal lines Hlines). exists lines. split; [done|].
  unfold OrderService.createOrder, CartService.getCart.
  destruct (CartService.readCart w u) as [|item rest] eqn:Hcart; [done|].
  cbn [length Nat.eqb]. rewrite Hloop. cbn [CartService.clearCart app].
  fold (sumTotals lines). by rewrite Htotal.
Qed.



Lemma listOrdersForUser_elem w u order l :
  OrderService.listOrdersForUser w u = Sent l ->
  order ∈ l <-> (exists id, orders w !! id = Some order) /\ Order.userId order = u.
Proof.
  intros [= <-]. rewrite list_elem_of_filter, list_elem_of_fmap. split.
  - intros [Hu ([id x] & -> & Hin)]. split; [|done]. exists id.
    by apply elem_of_map_to_list.
  - intros [[id Hget] Hu]. split; [done|]. exists (id, order). split; [done|].
    by apply elem_of_map_to_list.
Qed.

(** After a checkout that succeeded under a fresh [orderId], the orders of
    the user are the orders listed before and the new order; the orders
    listed for any other user are the same as before. *)
Theorem listOrdersForUser_after_createOrder w u customer orderId date clearedAt w' order :
  OrderService.createOrder w u customer orderId date clearedAt = (w', Sent order) ->
  orders w !! orderId = None ->
  (exists before after,
      OrderService.listOrdersForUser w u = Sent before /\
      OrderService.listOrdersForUser w' u = Sent after /\
      after ≡ₚ order :: before) /\
  (forall u', u' <> u ->
     exists before after,
       OrderService.listOrdersForUser w u' = Sent before /\
       OrderService.listOrdersForUser w' u' = Sent after /\
       after ≡ₚ before).
Proof.
  intros Hfirst Hfresh.
  destruct (createOrder_sent _ _ _ _ _ _ _ _ Hfirst)
    as (total & orderItems & _ & _ & -> & ->).
  unfold OrderService.listOrdersForUser. cbn.
  split.
  - eexists _, _. split; [done|]. split; [done|].
    rewrite map_to_list_insert by done.
    rewrite fmap_cons, filter_cons. cbn. by rewrite decide_True.
  - intros u' Hne. eexists _, _. split; [done|]. split; [done|].
    rewrite map_to_list_insert by done.
    rewrite fmap_cons, filter_cons. cbn. by rewrite decide_False.
Qed.
End MoreOrderProperties.

(** ** Frontend service: session, add, update, remove, clear, pages *)
Section MoreFrontendProperties.
Context {num : Type}.
Implicit Types (w : World num) (cart : list CartItem.t) (u : string) (p n : Z).

Lemma getUserId_some session fresh u :
  Frontend.userId session = Some u -> Frontend.getUserId session fresh = (u, session).
Proof. intros Hsome. unfold Frontend.getUserId. by rewrite Hsome. Qed.

(** The user identifier is generated once: after [getUserId] the session
    holds the identifier that was returned, and every later call returns it
    again and leaves the session as it is, whatever [uuid.v4()] would give. *)
Theorem getUserId_stable session fresh :
  let (u, session') := Frontend.getUserId session fresh in
  Frontend.userId session' = Some u /\
  forall fresh', Frontend.getUserId session' fresh' = (u, session').
Proof.
  unfold Frontend.getUserId at 1.
  destruct (Frontend.userId session) as [id|] eqn:Hid.
  - split; [done|]. intros fresh'. by apply getUserId_some.
  - split; [done|]. intros fresh'. by apply getUserId_some.
Qed.

(** POST /cart/add with a quantity field that does not parse, or parses to
    0, adds one unit: for a product of the catalog with a unit in stock the
    user's cart gets one unit merged in, the stock drops by one and the
    browser is sent to /cart. *)
Theorem cartAdd_default_quantity w session fresh p quantity now u product :
  Frontend.userId session = Some u ->
  products w !! p = Some product ->
  Product.id product = p ->
  1 <= Product.stock product ->
  quantity = None \/ quantity = Some 0 ->
  let '(w', session', page) := Frontend.cartAdd w session fresh p quantity now in
  page = Frontend.Redirect "/cart" /\
  session' = session /\
  CartService.getCart w' u = Sent (merge p 1 (CartService.readCart w u)) /\
  stockOf w' p = Some (Product.stock product - 1).
Proof.
  intros Hsession Hget Hkey Hstock Hquantity. unfold Frontend.cartAdd.
  rewrite (getUserId_some _ _ _ Hsession).
  assert (Hone : Frontend.quantityOrOne quantity = 1) by (by destruct Hquantity as [-> | ->]).
  rewrite Hone, (addItem_in_stock w u p 1 now product Hget Hkey Hstock).
  split; [done|]. split; [done|]. split.
  - unfold CartService.getCart, CartService.readCart. cbn. by rewrite lookup_insert_eq.
  - unfold stockOf. cbn. by rewrite lookup_insert_eq.
Qed.

(** POST /cart/add for a product the catalog does not hold, or for more
    units than are in stock, writes nothing and sends the browser to the
    product list with the error in the query string. *)
Theorem cartAdd_failure w session fresh p quantity now :
  (products w !! p = None \/
   exists product,
     products w !! p = Some product /\
     Product.stock product < Frontend.quantityOrOne quantity) ->
  Frontend.cartAdd w session fresh p quantity now =
    (w, snd (Frontend.getUserId session fresh),
     Frontend.Redirect "/products?error=Failed to add item to cart").
Proof.
  intros Hbad. unfold Frontend.cartAdd.
  destruct (Frontend.getUserId session fresh) as [u session'].
  unfold CartService.addItem, ProductService.getProduct.
  destruct Hbad as [->|(product & -> & Hlt)]; [done|].
  by rewrite (proj2 (Z.ltb_lt _ _) Hlt).
Qed.

Lemma find_some cart p currentItem :
  Frontend.find (CartService.hasProductId p) cart = Some currentItem ->
  CartItem.productId currentItem = p /\ currentItem ∈ cart.
Proof.
  induction cart as [|item rest IH]; [done|]. cbn.
  unfold CartService.hasProductId at 1. case_bool_decide as Hhd.
  - intros [= <-]. split; [done|]. by left.
  - intros Hfind. destruct (IH Hfind) as [Hid Hin]. split; [done|]. by right.
Qed.

Lemma units_absent cart p : p ∉ (CartItem.productId <$> cart) -> units p cart = 0.
Proof.
  induction cart as [|item rest IH]; [done|]. cbn. intros Hnot.
  apply not_elem_of_cons in Hnot as [Hne Hrest].
  rewrite bool_decide_eq_false_2 by congruence. rewrite IH by done. lia.
Qed.

(** In a cart with unique lines, the units of a product are the quantity of
    its one line. *)
Lemma units_unique cart p currentItem :
  uniqueLines cart ->
  Frontend.find (CartService.hasProductId p) cart = Some currentItem ->
  units p cart = CartItem.quantity currentItem.
Proof.
  unfold uniqueLines. induction cart as [|item rest IH]; [done|]. cbn.
  intros Hunique. apply NoDup_cons in Hunique as [Hnotin Hunique].
  unfold CartService.hasProductId at 1. case_bool_decide as Hhd.
  - intros [= <-]. rewrite units_absent; [lia|]. by rewrite <- Hhd.
  - intros Hfind. rewrite IH by done. lia.
Qed.

(** [cartItems.map(item => item.productId === productId
      ? { ...item, quantity: newQuantity } : item)] *)
Lemma units_map_other cart p n p' :
  p' <> p ->
  units p' (map (fun item => if CartService.hasProductId p item
                             then CartItem.withQuantity item n else item) cart) =
    units p' cart.
Proof.
  intros Hne. induction cart as [|item rest IH]; [done|]. cbn. rewrite IH.
  destruct (CartService.hasProductId p item) eqn:Hhd; [|done].
  apply bool_decide_eq_true in Hhd. cbn.
  rewrite !bool_decide_eq_false_2 by congruence. done.
Qed.

Lemma units_map_unique cart p n currentItem :
  uniqueLines cart ->
  Frontend.find (CartService.hasProductId p) cart = Some currentItem ->
  units p (map (fun item => if CartService.hasProductId p item
                            then CartItem.withQuantity item n else item) cart) = n.
Proof.
  unfold uniqueLines. induction cart as [|item rest IH]; [done|]. cbn.
  intros Hunique. apply NoDup_cons in Hunique as [Hnotin Hunique].
  destruct (CartService.hasProductId p item) eqn:Hhd.
  - apply bool_decide_eq_true in Hhd. intros _. cbn.
    rewrite bool_decide_eq_true_2 by done.
    rewrite units_absent; [lia|].
    replace (CartItem.productId <$> map _ rest) with (CartItem.productId <$> rest);
      [by rewrite <- Hhd|].
    clear. induction rest as [|item' rest IH]; [done|]. cbn. rewrite <- IH.
    by destruct (CartService.hasProductId p item').
  - apply bool_decide_eq_false in Hhd. intros Hfind.
    rewrite bool_decide_eq_false_2 by done. rewrite IH by done. lia.
Qed.

Lemma ids_map cart p n :
  CartItem.productId <$>
    map (fun item => if CartService.hasProductId p item
                     then CartItem.withQuantity item n else item) cart =
  CartItem.productId <$> cart.
Proof.
  induction cart as [|item rest IH]; [done|]. cbn. rewrite <- IH.
  by destruct (CartService.hasProductId p item).
Qed.

(** POST /cart/update/:id with a positive quantity for a product that is in
    the user's cart and in the catalog: every line of the product gets the
    new quantity, the other lines stay, and the stock is moved by the
    difference between the quantity of the product's first line and the new
    one (without a check: the stock that is written may be negative).  In
    a cart with unique lines the product then has [n] units, and stock plus
    units in the cart is what it was. *)
Theorem cartUpdate_sets_quantity w session fresh p n now u product currentItem :
  Frontend.userId session = Some u ->
  Frontend.find (CartService.hasProductId p) (CartService.readCart w u) = Some currentItem ->
  products w !! p = Some product ->
  Product.id product = p ->
  0 < n ->
  let '(w', session', page) := Frontend.cartUpdate w session fresh p n now in
  page = Frontend.Redirect "/cart" /\
  session' = session /\
  CartItem.productId <$> CartService.readCart w' u =
    CartItem.productId <$> CartService.readCart w u /\
  (forall item, item ∈ CartService.readCart w' u ->
                CartItem.productId item = p -> CartItem.quantity item = n) /\
  (forall p', p' <> p ->
              units p' (CartService.readCart w' u) = units p' (CartService.readCart w u)) /\
  stockOf w' p = Some (Product.stock product + (CartItem.quantity currentItem - n)) /\
  (uniqueLines (CartService.readCart w u) ->
   units p (CartService.readCart w' u) = n /\
   Product.stock product + (CartItem.quantity currentItem - n)
     + units p (CartService.readCart w' u) =
   Product.stock product + units p (CartService.readCart w u)).
Proof.
  intros Hsession Hfind Hget Hkey Hpos. unfold Frontend.cartUpdate.
  rewrite (getUserId_some _ _ _ Hsession).
  unfold Frontend.tryCartUpdate, CartService.getCart. rewrite Hfind.
  rewrite (proj2 (Z.leb_gt _ _) Hpos).
  unfold ProductService.getProduct. rewrite Hget.
  rewrite (setStock_present w p _ product Hget Hkey).
  unfold CartService.replaceCart. cbn [fst snd Cart.orEmpty].
  set (updatedItems := map _ (CartService.readCart w u)).
  assert (Hread : CartService.readCart
            (CartService.putCart (Cart.mk u (Cart.Items updatedItems) now)
               (setProducts w
                  (<[p := Product.withStock product
                            (Product.stock product + (CartItem.quantity currentItem - n))]>
                     (products w)))) u = updatedItems).
  { unfold CartService.readCart at 1. cbn. by rewrite lookup_insert_eq. }
  rewrite Hread. split; [done|]. split; [done|]. split; [apply ids_map|].
  split; [|split; [|split]].
  - intros item Hin Hid. subst updatedItems. apply list_elem_of_fmap in Hin as (item0 & -> & Hin0).
    destruct (CartService.hasProductId p item0) eqn:Hhd; [done|].
    apply bool_decide_eq_false in Hhd. done.
  - intros p' Hne. by apply units_map_other.
  - unfold stockOf. cbn. by rewrite lookup_insert_eq.
  - intros Hunique. subst updatedItems.
    rewrite (units_map_unique _ _ _ _ Hunique Hfind).
    rewrite (units_unique _ _ _ Hunique Hfind). split; [done|lia].
Qed.

(** GET /cart/remove/:id does what POST /cart/update/:id does for a
    quantity of 0 or below: the same tables, session and redirect. *)
Theorem cartRemove_is_cartUpdate_nonpositive w session fresh p n now :
  n <= 0 ->
  Frontend.cartRemove w session fresh p now = Frontend.cartUpdate w session fresh p n now.
Proof.
  intros Hle. unfold Frontend.cartRemove, Frontend.cartUpdate,
    Frontend.tryCartRemove, Frontend.tryCartUpdate.
  by rewrite (proj2 (Z.leb_le _ _) Hle).
Qed.

Lemma units_filter_other cart p p' :
  p' <> p ->
  units p' (filter (fun item => CartItem.productId item <> p) cart) = units p' cart.
Proof.
  intros Hne. induction cart as [|item rest IH]; [done|].
  rewrite filter_cons. destruct (decide (CartItem.productId item <> p)) as [Hkeep|Hdrop].
  - cbn. by rewrite IH.
  - cbn. rewrite IH. apply dec_stable in Hdrop.
    rewrite bool_decide_eq_false_2 by congruence. lia.
Qed.

Lemma ids_filter cart p :
  p ∉ (CartItem.productId <$> filter (fun item => CartItem.productId item <> p) cart).
Proof.
  intros Hin. apply list_elem_of_fmap in Hin as (item & Hid & Hin).
  apply list_elem_of_filter in Hin as [Hne _]. by apply Hne.
Qed.

Lemma filter_absent cart p :
  p ∉ (CartItem.productId <$> cart) ->
  filter (fun item => CartItem.productId item <> p) cart = cart.
Proof.
  induction cart as [|item rest IH]; [done|]. intros Hnot.
  rewrite fmap_cons in Hnot. apply not_elem_of_cons in Hnot as [Hne Hrest].
  rewrite filter_cons, decide_True by congruence. by rewrite IH.
Qed.

(** GET /cart/remove/:id for a product that is in the user's cart and in
    the catalog: the lines of the product leave the cart, the other lines
    stay, and the quantity of the product's first line goes back to the
    stock.  In a cart with unique lines, stock plus units in the cart is
    what it was. *)
Theorem cartRemove_restores_stock w session fresh p now u product itemToRemove :
  Frontend.userId session = Some u ->
  Frontend.find (CartService.hasProductId p) (CartService.readCart w u) = Some itemToRemove ->
  products w !! p = Some product ->
  Product.id product = p ->
  let '(w', session', page) := Frontend.cartRemove w session fresh p now in
  page = Frontend.Redirect "/cart" /\
  session' = session /\
  CartService.readCart w' u =
    filter (fun item => CartItem.productId item <> p) (CartService.readCart w u) /\
  (p ∉ (CartItem.productId <$> CartService.readCart w' u)) /\
  (forall p', p' <> p ->
              units p' (CartService.readCart w' u) = units p' (CartService.readCart w u)) /\
  stockOf w' p = Some (Product.stock product + CartItem.quantity itemToRemove) /\
  (uniqueLines (CartService.readCart w u) ->
   Product.stock product + CartItem.quantity itemToRemove
     + units p (CartService.readCart w' u) =
   Product.stock product + units p (CartService.readCart w u)).
Proof.
  intros Hsession Hfind Hget Hkey. unfold Frontend.cartRemove.
  rewrite (getUserId_some _ _ _ Hsession).
  unfold Frontend.tryCartRemove, CartService.getCart. rewrite Hfind.
  unfold ProductService.getProduct. rewrite Hget.
  rewrite (setStock_present w p _ product Hget Hkey).
  unfold CartService.replaceCart. cbn [fst snd Cart.orEmpty].
  set (updatedItems := filter _ (CartService.readCart w u)).
  assert (Hread : CartService.readCart
            (CartService.putCart (Cart.mk u (Cart.Items updatedItems) now)
               (setProducts w
                  (<[p := Product.withStock product
                            (Product.stock product + CartItem.quantity itemToRemove)]>
                     (products w)))) u = updatedItems).
  { unfold CartService.readCart at 1. cbn. by rewrite lookup_insert_eq. }
  rewrite Hread. split; [done|]. split; [done|]. split; [done|].
  split; [apply ids_filter|]. split; [|split].
  - intros p' Hne. by apply units_filter_other.
  - unfold stockOf. cbn. by rewrite lookup_insert_eq.
  - intros Hunique. rewrite (units_absent updatedItems p) by apply ids_filter.
    rewrite (units_unique _ _ _ Hunique Hfind). lia.
Qed.

(** GET /cart/remove/:id for a product that no line of the user's cart
    names writes nothing and redirects to /cart. *)
Theorem cartRemove_absent_product w session fresh p now :
  p ∉ (CartItem.productId <$>
         CartService.readCart w (fst (Frontend.getUserId session fresh))) ->
  Frontend.cartRemove w session fresh p now =
    (w, snd (Frontend.getUserId session fresh), Frontend.Redirect "/cart").
Proof.
  intros Hnot. unfold Frontend.cartRemove.
  destruct (Frontend.getUserId session fresh) as [u session']. cbn in Hnot.
  unfold Frontend.tryCartRemove, CartService.getCart.
  by rewrite (find_absent _ _ Hnot).
Qed.

Lemma find_app_absent cart p item :
  p ∉ (CartItem.productId <$> cart) ->
  CartItem.productId item = p ->
  Frontend.find (CartService.hasProductId p) (cart ++ [item]) = Some item.
Proof.
  intros Hnot Hid. induction cart as [|item' rest IH]; cbn.
  - unfold CartService.hasProductId. by rewrite bool_decide_eq_true_2.
  - apply not_elem_of_cons in Hnot as [Hne Hrest].
    unfold CartService.hasProductId at 1.
    rewrite bool_decide_eq_false_2 by congruence. by apply IH.
Qed.

(** Adding a product that was not in the cart and removing it again is a
    round trip: the catalog is exactly what it was, and so is the content
    of the user's cart. *)
Theorem addItem_then_cartRemove w session fresh u p q now1 now2 product :
  Frontend.userId session = Some u ->
  products w !! p = Some product ->
  Product.id product = p ->
  q <= Product.stock product ->
  p ∉ (CartItem.productId <$> CartService.readCart w u) ->
  let w1 := fst (CartService.addItem w u p q now1) in
  let '(w2, session', page) := Frontend.cartRemove w1 session fresh p now2 in
  page = Frontend.Redirect "/cart" /\
  products w2 = products w /\
  CartService.getCart w2 u = CartService.getCart w u /\
  orders w2 = orders w.
Proof.
  intros Hsession Hget Hkey Hle Hnot. cbv zeta.
  rewrite (addItem_in_stock w u p q now1 product Hget Hkey Hle). cbn [fst].
  rewrite (merge_absent _ _ _ Hnot).
  set (w1 := setProducts _ _).
  assert (Hread1 : CartService.readCart w1 u =
                     CartService.readCart w u ++ [CartItem.mk p q]).
  { unfold CartService.readCart at 1. subst w1. cbn. by rewrite lookup_insert_eq. }
  assert (Hget1 : products w1 !! p =
                    Some (Product.withStock product (Product.stock product - q))).
  { subst w1. cbn. by rewrite lookup_insert_eq. }
  assert (Hfind1 : Frontend.find (CartService.hasProductId p) (CartService.readCart w1 u) =
                     Some (CartItem.mk p q)).
  { rewrite Hread1. by apply find_app_absent. }
  unfold Frontend.cartRemove. rewrite (getUserId_some _ _ _ Hsession).
  unfold Frontend.tryCartRemove, CartService.getCart. rewrite Hfind1.
  unfold ProductService.getProduct. rewrite Hget1.
  rewrite (setStock_present w1 p _ _ Hget1 Hkey).
  unfold CartService.replaceCart. cbn [fst snd Cart.orEmpty].
  split; [done|]. split; [|split; [|done]].
  - subst w1. cbn. rewrite insert_insert_eq.
    apply insert_id. rewrite Hget. f_equal. destruct product. cbn. f_equal. lia.
  - f_equal. unfold CartService.readCart at 1. cbn [carts CartService.putCart setCarts
      Cart.userId Cart.items Cart.orEmpty]. rewrite lookup_insert_eq. cbn [Cart.items Cart.orEmpty].
    rewrite Hread1, filter_app, (filter_absent _ _ Hnot).
    rewrite filter_cons, filter_nil. cbn. rewrite decide_False by (by intros Hne; apply Hne).
    by rewrite app_nil_r.
Qed.

Lemma setStock_stockOf w p s product p' :
  products w !! p = Some product ->
  Product.id product = p ->
  stockOf (fst (ProductService.setStock w p s)) p' =
    if decide (p' = p) then Some s else stockOf w p'.
Proof.
  intros Hget Hkey. rewrite (setStock_present w p s product Hget Hkey).
  unfold stockOf. cbn. destruct (decide (p' = p)) as [->|Hne].
  - by rewrite lookup_insert_eq.
  - by rewrite lookup_insert_ne.
Qed.

(** The restore loop over a cart whose products are all in the catalog runs
    to its end and gives every product the units the cart held of it. *)
Lemma restoreStock_all cart : forall w,
  keyed w ->
  (forall item, item ∈ cart -> is_Some (products w !! CartItem.productId item)) ->
  exists w',
    Frontend.restoreStock w cart = (w', true) /\
    keyed w' /\
    carts w' = carts w /\
    orders w' = orders w /\
    forall p, stockOf w' p = (fun s => s + units p cart) <$> stockOf w p.
Proof.
  induction cart as [|item rest IH]; intros w Hkeyed Hall.
  - exists w. repeat split; try done. intros p. unfold stockOf.
    destruct (products w !! p) as [product|]; cbn; [|done]. f_equal. lia.
  - destruct (Hall item) as [product Hget]; [by left|].
    pose proof (Hkeyed _ _ Hget) as Hkey.
    set (s := Product.stock product + CartItem.quantity item).
    assert (Hstock : forall p',
               stockOf (fst (ProductService.setStock w (CartItem.productId item) s)) p' =
                 if decide (p' = CartItem.productId item) then Some s else stockOf w p')
      by (intros p'; by apply (setStock_stockOf w _ s product)).
    pose proof (setStock_keyed w (CartItem.productId item) s Hkeyed) as Hkeyed1.
    cbn [Frontend.restoreStock]. unfold ProductService.getProduct. rewrite Hget.
    fold s. rewrite (setStock_present w _ s product Hget Hkey) in *. cbn [fst] in *.
    set (w1 := setProducts w _) in *.
    destruct (IH w1 Hkeyed1) as (w' & Hloop & Hkeyed' & Hcarts & Horders & Hstock').
    { intros item' Hin. subst w1. cbn.
      destruct (decide (CartItem.productId item = CartItem.productId item')) as [<-|Hne].
      - rewrite lookup_insert_eq. by eexists.
      - rewrite lookup_insert_ne by done. apply Hall. by right. }
    exists w'. split; [done|]. split; [done|]. split; [done|]. split; [done|].
    intros p. rewrite Hstock', Hstock. cbn [units].
    destruct (decide (p = CartItem.productId item)) as [->|Hne].
    + rewrite bool_decide_eq_true_2 by done. unfold stockOf. rewrite Hget. cbn.
      f_equal. subst s. lia.
    + rewrite bool_decide_eq_false_2 by congruence.
      destruct (stockOf w p) as [s0|]; cbn; [|done]. f_equal; lia.
Qed.

Lemma restoreStock_app pre post : forall w,
  Frontend.restoreStock w (pre ++ post) =
    match Frontend.restoreStock w pre with
    | (w1, true) => Frontend.restoreStock w1 post
    | (w1, false) => (w1, false)
    end.
Proof.
  induction pre as [|item rest IH]; intros w; [done|]. cbn.
  destruct (ProductService.getProduct w (CartItem.productId item)) as [product|]; [|done].
  destruct (ProductService.setStock w _ _) as [w1 [ok|status error]]; [|done].
  apply IH.
Qed.

(** GET /cart/clear for a cart whose products are all in the catalog: every
    product gets back the units the cart held of it, over all its lines;
    then the cart is emptied.  No other cart and no order is written. *)
Theorem cartClear_restores_stock w session fresh now u :
  Frontend.userId session = Some u ->
  keyed w ->
  (forall item, item ∈ CartService.readCart w u ->
                is_Some (products w !! CartItem.productId item)) ->
  let '(w', session', page) := Frontend.cartClear w session fresh now in
  page = Frontend.Redirect "/cart" /\
  session' = session /\
  CartService.getCart w' u = Sent [] /\
  (forall p, stockOf w' p = (fun s => s + units p (CartService.readCart w u)) <$> stockOf w p) /\
  (forall u', u' <> u -> carts w' !! u' = carts w !! u') /\
  orders w' = orders w.
Proof.
  intros Hsession Hkeyed Hall. unfold Frontend.cartClear.
  rewrite (getUserId_some _ _ _ Hsession). unfold CartService.getCart at 1.
  destruct (restoreStock_all _ w Hkeyed Hall)
    as (w1 & -> & _ & Hcarts & Horders & Hstock).
  cbn. split; [done|]. split; [done|]. split; [|split; [|split]].
  - unfold CartService.getCart, CartService.readCart. cbn. by rewrite lookup_insert_eq.
  - exact Hstock.
  - intros u' Hne. rewrite lookup_insert_ne by done. by rewrite Hcarts.
  - done.
Qed.

(** GET /cart/clear stops at the first line whose product the catalog does
    not hold: the lines before it have had their units put back in stock,
    the cart is kept as it was, and the browser is redirected to /cart all
    the same. *)
Theorem cartClear_unknown_product w session fresh now u pre item post :
  Frontend.userId session = Some u ->
  keyed w ->
  CartService.readCart w u = pre ++ item :: post ->
  (forall item', item' ∈ pre -> is_Some (products w !! CartItem.productId item')) ->
  products w !! CartItem.productId item = None ->
  let '(w', session', page) := Frontend.cartClear w session fresh now in
  page = Frontend.Redirect "/cart" /\
  session' = session /\
  carts w' = carts w /\
  (forall p, stockOf w' p = (fun s => s + units p pre) <$> stockOf w p).
Proof.
  intros Hsession Hkeyed Hcart Hpre Hnone. unfold Frontend.cartClear.
  rewrite (getUserId_some _ _ _ Hsession). unfold CartService.getCart.
  rewrite Hcart, restoreStock_app.
  destruct (restoreStock_all _ w Hkeyed Hpre)
    as (w1 & -> & _ & Hcarts & _ & Hstock).
  cbn [Frontend.restoreStock]. unfold ProductService.getProduct.
  assert (Hnone1 : products w1 !! CartItem.productId item = None).
  { specialize (Hstock (CartItem.productId item)). unfold stockOf in Hstock.
    rewrite Hnone in Hstock. cbn in Hstock.
    by destruct (products w1 !! CartItem.productId item). }
  by rewrite Hnone1.
Qed.
End MoreFrontendProperties.

(** ** Frontend service: the cart page and the checkout *)
Section PageProperties.
Context {num : Type} `{Number num}.
Implicit Types (w : World num) (u : string).

(** The loop of the cart page and the loop of the order service walk the
    cart alike: they stop together, and when they run to the end they have
    added the same line totals to the same total. *)
Lemma cartLoop_orderLoop w cartItems : forall total cart orderItems,
  Frontend.line_itemTotal <$> cart = Order.itemTotal <$> orderItems ->
  Frontend.line_quantity <$> cart = Order.quantity <$> orderItems ->
  match Frontend.cartLoop w cartItems total cart,
        OrderService.orderLoop w cartItems total orderItems with
  | Some (total1, cart'), Some (total2, orderItems') =>
      total1 = total2 /\
      Frontend.line_itemTotal <$> cart' = Order.itemTotal <$> orderItems' /\
      Frontend.line_quantity <$> cart' = Order.quantity <$> orderItems'
  | None, None => True
  | _, _ => False
  end.
Proof.
  induction cartItems as [|item rest IH]; intros total cart orderItems Htotals Hquantities.
  - done.
  - cbn. destruct (ProductService.getProduct w (CartItem.productId item)) as [product|]; [|done].
    apply IH; rewrite !fmap_app; cbn; by f_equal.
Qed.

Lemma cartLoop_missing w cartItems : forall total cart item,
  item ∈ cartItems ->
  products w !! CartItem.productId item = None ->
  Frontend.cartLoop w cartItems total cart = None.
Proof.
  induction cartItems as [|item' rest IH]; intros total cart item Hin Hnone.
  - by apply elem_of_nil in Hin.
  - cbn. unfold ProductService.getProduct.
    destruct (products w !! CartItem.productId item') as [product|] eqn:Hget; [|done].
    apply elem_of_cons in Hin as [->|Hin]; [congruence|]. by eapply IH.
Qed.

(** The cart page shows what the checkout charges: when POST /api/orders
    succeeds on the tables the cart page was rendered from, the total and
    the line totals of the page are those of the order, line by line, and
    the cart count is the number of order lines. *)
Theorem cartPage_total_is_order_total w session fresh u customer orderId date clearedAt w' order :
  Frontend.userId session = Some u ->
  OrderService.createOrder w u customer orderId date clearedAt = (w', Sent order) ->
  let view := snd (Frontend.cartPage w session fresh) in
  Frontend.view_total view = Order.total order /\
  Frontend.line_itemTotal <$> Frontend.view_cart view = Order.itemTotal <$> Order.items order /\
  Frontend.line_quantity <$> Frontend.view_cart view = Order.quantity <$> Order.items order /\
  Frontend.view_cartCount view = length (Order.items order).
Proof.
  intros Hsession Hcreate. cbv zeta. unfold Frontend.cartPage.
  rewrite (getUserId_some _ _ _ Hsession). unfold CartService.getCart.
  destruct (createOrder_sent _ _ _ _ _ _ _ _ Hcreate)
    as (total & orderItems & Hloop & _ & -> & _).
  pose proof (cartLoop_orderLoop w (CartService.readCart w u) num_zero [] [] eq_refl eq_refl)
    as Hboth.
  rewrite Hloop in Hboth.
  destruct (Frontend.cartLoop w (CartService.readCart w u) num_zero [])
    as [[total1 cart]|] eqn:Hcart; [|done].
  destruct Hboth as (-> & Htotals & Hquantities). cbn.
  split; [done|]. split; [done|]. split; [done|].
  assert (Hlen : forall cartItems total0 acc total' orderItems',
             OrderService.orderLoop w cartItems total0 acc = Some (total', orderItems') ->
             length orderItems' = (length acc + length cartItems)%nat).
  { clear. induction cartItems as [|item rest IH]; intros total0 acc total' orderItems'; cbn.
    - intros [= _ <-]. lia.
    - destruct (ProductService.getProduct w (CartItem.productId item)) as [product|]; [|done].
      intros Hrest. rewrite (IH _ _ _ _ Hrest), length_app. cbn. lia. }
  by rewrite (Hlen _ _ _ _ _ Hloop).
Qed.

(** The cart page of a user whose cart names a product the catalog does not
    hold is rendered as an empty cart: no line, total 0 and cart count 0,
    although the stored cart has lines. *)
Theorem cartPage_unknown_product w session fresh u item :
  Frontend.userId session = Some u ->
  item ∈ CartService.readCart w u ->
  products w !! CartItem.productId item = None ->
  Frontend.cartPage w session fresh = (session, Frontend.mkCartView [] num_zero 0%nat) /\
  Frontend.getCartCount w u <> 0%nat.
Proof.
  intros Hsession Hin Hnone. unfold Frontend.cartPage, Frontend.getCartCount.
  rewrite (getUserId_some _ _ _ Hsession). unfold CartService.getCart.
  rewrite (cartLoop_missing w _ num_zero [] item Hin Hnone). split; [done|].
  destruct (CartService.readCart w u); [by apply elem_of_nil in Hin|done].
Qed.

(** POST /orders/place with an empty cart: the 400 "Cart is empty" of the
    order service reaches the browser as the error page with status 500
    and the message "Failed to place order"; nothing is written. *)
Theorem ordersPlace_empty_cart w session fresh name email address orderId date clearedAt :
  CartService.getCart w (fst (Frontend.getUserId session fresh)) = Sent [] ->
  Frontend.ordersPlace w session fresh name email address orderId date clearedAt =
    (w, snd (Frontend.getUserId session fresh),
     Frontend.ErrorPage 500 "Failed to place order" 0%nat).
Proof.
  intros Hcart. unfold Frontend.ordersPlace.
  destruct (Frontend.getUserId session fresh) as [u session']. cbn in Hcart.
  unfold CartService.getCart in Hcart. injection Hcart as Hread.
  unfold OrderService.createOrder, Frontend.getCartCount, CartService.getCart.
  rewrite Hread. cbn. by rewrite Hread.
Qed.

(** POST /orders/place for a cart that is not empty and names only products
    of the catalog, when the sum of the line totals is not below 0: the
    browser is redirected to the confirmation page of
    the order stored under [orderId], which carries the customer of the
    form and the user of the session; the cart count is 0 afterwards. *)
Theorem ordersPlace_confirms w session fresh name email address orderId date clearedAt u :
  Frontend.userId session = Some u ->
  CartService.readCart w u <> [] ->
  (forall item, item ∈ CartService.readCart w u ->
                is_Some (products w !! CartItem.productId item)) ->
  (forall lines, Forall2 (lineOf w) (CartService.readCart w u) lines ->
                 num_nonneg (sumTotals lines) = true) ->
  let '(w', session', result) :=
    Frontend.ordersPlace w session fresh name email address orderId date clearedAt in
  result = Frontend.Confirmation ("/orders/confirmation/" ++ orderId) /\
  session' = session /\
  (exists order,
      OrderService.getOrder w' orderId = Sent order /\
      Order.userId order = u /\
      Order.customer order = Order.mkCustomer name email address /\
      length (Order.items order) = length (CartService.readCart w u)) /\
  Frontend.getCartCount w' u = 0%nat.
Proof.
  intros Hsession Hnonempty Hall Htotal. unfold Frontend.ordersPlace.
  rewrite (getUserId_some _ _ _ Hsession).
  destruct (orderLoop_total w _ num_zero [] Hall) as (lines & Hloop & Hlines).
  specialize (Htotal lines Hlines). unfold sumTotals in Htotal.
  destruct (createOrder_cases w u (Order.mkCustomer name email address) orderId date clearedAt)
    as [(status & error & Hfail)|(total & orderItems & _ & Hloop' & ->)].
  - exfalso. unfold OrderService.createOrder, CartService.getCart in Hfail.
    destruct (CartService.readCart w u) as [|item rest] eqn:Hcart; [done|].
    cbn [length Nat.eqb] in Hfail. rewrite Hloop in Hfail.
    cbn [CartService.clearCart] in Hfail. rewrite Htotal in Hfail.
    discriminate Hfail.
  - rewrite Hloop in Hloop'. injection Hloop' as <- <-. rewrite Htotal. cbn.
    split; [done|]. split; [done|]. split.
    + eexists. unfold OrderService.getOrder. cbn. rewrite lookup_insert_eq.
      split; [done|]. cbn. split; [done|]. split; [done|].
      symmetry. by eapply Forall2_length.
    + unfold Frontend.getCartCount, CartService.getCart, CartService.readCart. cbn.
      by rewrite lookup_insert_eq.
Qed.

(** POST /orders/place when the sum of the line totals is below 0: the
    browser gets the error page with status 500
    and "Failed to place order", with cart count 0, although the order is
    stored under [orderId] and the cart has been cleared. *)
Theorem ordersPlace_rejected_total w session fresh name email address orderId date clearedAt u :
  Frontend.userId session = Some u ->
  CartService.readCart w u <> [] ->
  (forall item, item ∈ CartService.readCart w u ->
                is_Some (products w !! CartItem.productId item)) ->
  (forall lines, Forall2 (lineOf w) (CartService.readCart w u) lines ->
                 num_nonneg (sumTotals lines) = false) ->
  let '(w', session', result) :=
    Frontend.ordersPlace w session fresh name email address orderId date clearedAt in
  result = Frontend.ErrorPage 500 "Failed to place order" 0%nat /\
  session' = session /\
  (exists order,
      OrderService.getOrder w' orderId = Sent order /\
      Order.userId order = u) /\
  CartService.getCart w' u = Sent [].
Proof.
  intros Hsession Hnonempty Hall Htotal. unfold Frontend.ordersPlace.
  rewrite (getUserId_some _ _ _ Hsession).
  destruct (createOrder_rejected w u (Order.mkCustomer name email address)
              orderId date clearedAt Hnonempty Hall Htotal) as (lines & _ & ->).
  unfold Frontend.getCartCount, CartService.getCart, CartService.readCart,
    OrderService.getOrder. cbn. rewrite !lookup_insert_eq. cbn.
  split; [done|]. split; [done|]. split; [|done]. by eexists.
Qed.
End PageProperties.

(** ** Orders are written by the order service alone *)
Section OrdersUntouched.
Context {num : Type}.
Implicit Types (w : World num).

Lemma setStock_orders w id s : orders (fst (ProductService.setStock w id s)) = orders w.
Proof. unfold ProductService.setStock. by destruct (products w !! id). Qed.

Lemma addItem_orders w u p q now : orders (fst (CartService.addItem w u p q now)) = orders w.
Proof.
  unfold CartService.addItem.
  destruct (ProductService.getProduct w p) as [product|]; [|done].
  destruct (Product.stock product <? q); [done|].
  set (w1 := CartService.putCart _ w).
  pose proof (setStock_orders w1 p (Product.stock product - q)) as Hstock.
  by destruct (ProductService.setStock w1 p _) as [w2 [ok|status error]].
Qed.

Lemma serve_orders rs : forall w, orders (serve w rs) = orders w.
Proof.
  induction rs as [|r rs IH]; intros w; [done|].
  change (serve w (r :: rs)) with (serve (handle w r) rs). rewrite IH.
  destruct r as [u p q now|u items now|u now]; cbn [handle]; [apply addItem_orders|done|done].
Qed.

Lemma restoreStock_orders cartItems : forall w,
  orders (fst (Frontend.restoreStock w cartItems)) = orders w.
Proof.
  induction cartItems as [|item rest IH]; intros w; [done|]. cbn.
  destruct (ProductService.getProduct w (CartItem.productId item)) as [product|]; [|done].
  pose proof (setStock_orders w (CartItem.productId item)
                (Product.stock product + CartItem.quantity item)) as Hstock.
  destruct (ProductService.setStock w _ _) as [w1 [ok|status error]]; [|done].
  rewrite IH. exact Hstock.
Qed.

(** An order, once stored, is not rewritten by the traffic on stock and
    carts: the stock write of the product service, every sequence of
    requests to the cart service and the four cart routes of the frontend
    leave the orders table, hence every answer of GET /api/orders/:id, as
    it was. *)
Theorem orders_untouched w :
  (forall id s, orders (fst (ProductService.setStock w id s)) = orders w) /\
  (forall rs, orders (serve w rs) = orders w) /\
  (forall session fresh p quantity now,
      orders (fst (fst (Frontend.cartAdd w session fresh p quantity now))) = orders w) /\
  (forall session fresh p n now,
      orders (fst (fst (Frontend.cartUpdate w session fresh p n now))) = orders w) /\
  (forall session fresh p now,
      orders (fst (fst (Frontend.cartRemove w session fresh p now))) = orders w) /\
  (forall session fresh now,
      orders (fst (fst (Frontend.cartClear w session fresh now))) = orders w).
Proof.
  split; [apply setStock_orders|]. split; [intros rs; apply serve_orders|].
  split; [|split; [|split]].
  - intros session fresh p quantity now. unfold Frontend.cartAdd.
    destruct (Frontend.getUserId session fresh) as [u session'].
    pose proof (addItem_orders w u p (Frontend.quantityOrOne quantity) now) as Hadd.
    by destruct (CartService.addItem w u p _ now) as [w' [cart|status error]].
  - intros session fresh p n now. unfold Frontend.cartUpdate.
    destruct (Frontend.getUserId session fresh) as [u session'].
    assert (Htry : orders (fst (Frontend.tryCartUpdate w u p n now)) = orders w).
    { unfold Frontend.tryCartUpdate, CartService.getCart.
      destruct (Frontend.find _ _) as [currentItem|]; [|done].
      destruct (n <=? 0);
        (destruct (ProductService.getProduct w p) as [product|]; [|done]);
        match goal with
        | |- context [ProductService.setStock w p ?s] =>
            pose proof (setStock_orders w p s) as Hstock;
            destruct (ProductService.setStock w p s) as [w1 [ok|status error]]; [|done]
        end; exact Hstock. }
    by destruct (Frontend.tryCartUpdate w u p n now) as [w' [page|]].
  - intros session fresh p now. unfold Frontend.cartRemove.
    destruct (Frontend.getUserId session fresh) as [u session'].
    assert (Htry : orders (fst (Frontend.tryCartRemove w u p now)) = orders w).
    { unfold Frontend.tryCartRemove, CartService.getCart.
      destruct (Frontend.find _ _) as [itemToRemove|]; [|done].
      destruct (ProductService.getProduct w p) as [product|]; [|done].
      pose proof (setStock_orders w p
                    (Product.stock product + CartItem.quantity itemToRemove)) as Hstock.
      by destruct (ProductService.setStock w p _) as [w1 [ok|status error]]. }
    by destruct (Frontend.tryCartRemove w u p now) as [w' [page|]].
  - intros session fresh now. unfold Frontend.cartClear.
    destruct (Frontend.getUserId session fresh) as [u session'].
    unfold CartService.getCart.
    pose proof (restoreStock_orders (CartService.readCart w u) w) as Hloop.
    by destruct (Frontend.restoreStock w (CartService.readCart w u)) as [w1 [|]].
Qed.
End OrdersUntouched.

(** * The further properties on the sample catalog *)

Lemma cartOfTwo_keyed : keyed cartOfTwo.
Proof. apply addItem_keyed, seeded_keyed. Qed.

Lemma danglingCart_keyed : keyed danglingCart.
Proof. apply (keyed_same_products seeded); [done|apply seeded_keyed]. Qed.

Lemma mixedCart_keyed : keyed mixedCart.
Proof. apply (keyed_same_products seeded); [done|apply seeded_keyed]. Qed.

(** The first boot from three empty tables. *)
Lemma initializeProducts_first_boot_witness :
  products (mkWorld (num := Q) ∅ ∅ ∅) = ∅ /\
  ProductService.getProduct seeded (Product.id phone) = Sent phone /\
  keyed seeded.
Proof.
  assert (Hempty : products (mkWorld (num := Q) ∅ ∅ ∅) = ∅) by reflexivity.
  split; [exact Hempty|].
  destruct (initializeProducts_first_boot (mkWorld ∅ ∅ ∅) Hempty) as (Hget & _ & Hkeyed & _).
  split; [|exact Hkeyed]. apply (Hget phone). by left.
Defined.

(** The stock of the product 1 is set to 7, then to 9. *)
Lemma setStock_last_write_wins_witness :
  products seeded !! 1 = Some phone /\ Product.id phone = 1 /\
  ProductService.setStock (fst (ProductService.setStock seeded 1 7)) 1 9 =
    ProductService.setStock seeded 1 9.
Proof.
  assert (Hget : products seeded !! 1 = Some phone) by (vm_compute; reflexivity).
  assert (Hkey : Product.id phone = 1) by reflexivity.
  split; [exact Hget|]. split; [exact Hkey|].
  exact (proj1 (setStock_last_write_wins seeded 1 7 9 phone Hget Hkey)).
Defined.

Lemma listProducts_after_setStock_witness :
  keyed seeded /\ products seeded !! 1 = Some phone /\
  exists before after,
    ProductService.listProducts seeded = Sent before /\
    ProductService.listProducts (fst (ProductService.setStock seeded 1 7)) = Sent after /\
    length after = length before.
Proof.
  assert (Hget : products seeded !! 1 = Some phone) by (vm_compute; reflexivity).
  split; [exact seeded_keyed|]. split; [exact Hget|].
  destruct (listProducts_after_setStock seeded 1 7 phone seeded_keyed Hget)
    as (before & after & Hbefore & Hafter & Hlen & _).
  exists before, after. split; [exact Hbefore|]. split; [exact Hafter|exact Hlen].
Defined.

(** [u1] asks for the product 999. *)
Lemma addItem_unknown_product_witness :
  products seeded !! 999 = None /\
  CartService.addItem seeded "u1" 999 1 noon = (seeded, Failed 500 "Failed to add to cart").
Proof.
  assert (Hnone : products seeded !! 999 = None) by (vm_compute; reflexivity).
  split; [exact Hnone|]. exact (addItem_unknown_product seeded "u1" 999 1 noon Hnone).
Defined.

Lemma addItem_frame_witness :
  keyed seeded /\
  products (fst (CartService.addItem seeded "u1" 1 2 noon)) !! 2 = products seeded !! 2 /\
  carts (fst (CartService.addItem seeded "u1" 1 2 noon)) !! "u2" = carts seeded !! "u2".
Proof.
  split; [exact seeded_keyed|].
  destruct (addItem_frame seeded "u1" 1 2 noon seeded_keyed) as (Hcarts & Hproducts & _).
  split; [apply Hproducts; discriminate|apply Hcarts; discriminate].
Defined.

Lemma addItem_conserves_units_witness :
  keyed seeded /\
  (fun s => s + units 1 (CartService.readCart cartOfTwo "u1")) <$> stockOf cartOfTwo 1 =
  (fun s => s + units 1 (CartService.readCart seeded "u1")) <$> stockOf seeded 1.
Proof.
  split; [exact seeded_keyed|].
  exact (addItem_conserves_units seeded "u1" 1 2 noon seeded_keyed 1).
Defined.

(** Two adds of the same product, a replace with two distinct lines and a
    clear, from tables without carts. *)
Lemma serve_unique_lines_witness :
  uniqueCarts seeded /\
  Forall uniqueRequest
    [AddItem "u1" 1 2 noon; AddItem "u1" 1 3 later;
     ReplaceCart "u2" (Cart.Items [CartItem.mk 1 1; CartItem.mk 2 1]) noon;
     ClearCart "u3" later] /\
  uniqueCarts
    (serve seeded
       [AddItem "u1" 1 2 noon; AddItem "u1" 1 3 later;
        ReplaceCart "u2" (Cart.Items [CartItem.mk 1 1; CartItem.mk 2 1]) noon;
        ClearCart "u3" later]).
Proof.
  assert (Hstart : uniqueCarts seeded).
  { intros u. unfold CartService.readCart.
    change (carts seeded) with (∅ : gmap string Cart.t). rewrite lookup_empty.
    apply NoDup_nil_2. }
  assert (Hreqs : Forall uniqueRequest
            [AddItem "u1" 1 2 noon; AddItem "u1" 1 3 later;
             ReplaceCart "u2" (Cart.Items [CartItem.mk 1 1; CartItem.mk 2 1]) noon;
             ClearCart "u3" later]).
  { apply Forall_cons_2; [exact I|]. apply Forall_cons_2; [exact I|].
    apply Forall_cons_2; [unfold uniqueRequest, uniqueLines; compute_done|].
    apply Forall_cons_2; [exact I|]. apply Forall_nil_2. }
  split; [exact Hstart|]. split; [exact Hreqs|].
  exact (serve_unique_lines _ seeded Hstart Hreqs).
Defined.

(** [u1], with two units of the product 1 in the cart, checks out. *)
Lemma cartOfTwo_checkout :
  exists w' order,
    OrderService.createOrder cartOfTwo "u1" alice "order-1" noon later = (w', Sent order).
Proof. vm_compute. eexists _, _. reflexivity. Qed.

Lemma cartOfTwo_cart : CartService.readCart cartOfTwo "u1" = [CartItem.mk 1 2].
Proof. vm_compute. reflexivity. Qed.

Lemma cartOfTwo_products_present item :
  item ∈ CartService.readCart cartOfTwo "u1" ->
  is_Some (products cartOfTwo !! CartItem.productId item).
Proof.
  rewrite cartOfTwo_cart. intros Hin. apply list_elem_of_singleton in Hin as ->.
  vm_compute. eexists. reflexivity.
Qed.

Lemma cartOfTwo_total lines :
  Forall2 (lineOf cartOfTwo) (CartService.readCart cartOfTwo "u1") lines ->
  num_nonneg (sumTotals lines) = true.
Proof.
  intros Hlines.
  destruct (orderLoop_total cartOfTwo _ num_zero [] cartOfTwo_products_present)
    as (lines0 & Hloop & Hlines0).
  rewrite (lineOf_functional _ _ _ _ Hlines Hlines0). clear lines Hlines Hlines0.
  rewrite cartOfTwo_cart in Hloop. vm_compute in Hloop. injection Hloop as _ <-.
  vm_compute. reflexivity.
Qed.

Lemma cartOfTwo_find :
  Frontend.find (CartService.hasProductId 1) (CartService.readCart cartOfTwo "u1") =
    Some (CartItem.mk 1 2).
Proof. vm_compute. reflexivity. Qed.

Lemma cartOfTwo_phone :
  products cartOfTwo !! 1 = Some (Product.withStock phone 48).
Proof. vm_compute. reflexivity. Qed.

(** The checkout of [u1] is tried a second time. *)
Lemma createOrder_retry_empty_cart_witness :
  exists w' order,
    OrderService.createOrder cartOfTwo "u1" alice "order-1" noon later = (w', Sent order) /\
    OrderService.createOrder w' "u1" alice "order-2" later later =
      (w', Failed 400 "Cart is empty").
Proof.
  destruct cartOfTwo_checkout as (w' & order & Hcreate).
  exists w', order. split; [exact Hcreate|].
  exact (createOrder_retry_empty_cart cartOfTwo "u1" alice "order-1" noon later w' order
           Hcreate alice "order-2" later later).
Defined.


Lemma listOrdersForUser_after_createOrder_witness :
  orders cartOfTwo !! "order-1" = None /\
  exists w' order before after,
    OrderService.createOrder cartOfTwo "u1" alice "order-1" noon later = (w', Sent order) /\
    OrderService.listOrdersForUser cartOfTwo "u1" = Sent before /\
    OrderService.listOrdersForUser w' "u1" = Sent after /\
    after ≡ₚ order :: before.
Proof.
  assert (Hfresh : orders cartOfTwo !! "order-1" = None) by (vm_compute; reflexivity).
  split; [exact Hfresh|].
  destruct cartOfTwo_checkout as (w' & order & Hcreate).
  destruct (proj1 (listOrdersForUser_after_createOrder cartOfTwo "u1" alice "order-1"
                     noon later w' order Hcreate Hfresh))
    as (before & after & Hbefore & Hafter & Hperm).
  exists w', order, before, after.
  split; [exact Hcreate|]. split; [exact Hbefore|]. split; [exact Hafter|exact Hperm].
Defined.

(** [u1] posts the add form for the product 1 with an empty quantity. *)
Lemma cartAdd_default_quantity_witness :
  Frontend.userId session_u1 = Some "u1" /\
  products seeded !! 1 = Some phone /\ Product.id phone = 1 /\
  1 <= Product.stock phone /\
  stockOf (fst (fst (Frontend.cartAdd seeded session_u1 "fresh" 1 None noon))) 1 = Some 49.
Proof.
  assert (Hget : products seeded !! 1 = Some phone) by (vm_compute; reflexivity).
  assert (Hkey : Product.id phone = 1) by reflexivity.
  assert (Hstock : 1 <= Product.stock phone) by (cbn; lia).
  split; [reflexivity|]. split; [exact Hget|]. split; [exact Hkey|]. split; [exact Hstock|].
  pose proof (cartAdd_default_quantity seeded session_u1 "fresh" 1 None noon "u1" phone
                eq_refl Hget Hkey Hstock (or_introl eq_refl)) as Hthm.
  destruct (Frontend.cartAdd seeded session_u1 "fresh" 1 None noon) as [[w' session'] page].
  destruct Hthm as (_ & _ & _ & Hstockof). exact Hstockof.
Defined.

(** Sixty units of the product 1, of which fifty are in stock. *)
Lemma cartAdd_failure_witness :
  (exists product,
      products seeded !! 1 = Some product /\
      Product.stock product < Frontend.quantityOrOne (Some 60)) /\
  Frontend.cartAdd seeded session_u1 "fresh" 1 (Some 60) noon =
    (seeded, session_u1, Frontend.Redirect "/products?error=Failed to add item to cart").
Proof.
  assert (Hbad : exists product,
             products seeded !! 1 = Some product /\
             Product.stock product < Frontend.quantityOrOne (Some 60)).
  { exists phone. split; [vm_compute; reflexivity|cbn; lia]. }
  split; [exact Hbad|].
  exact (cartAdd_failure seeded session_u1 "fresh" 1 (Some 60) noon (or_intror Hbad)).
Defined.

(** [u1] changes the two units of the product 1 to five. *)
Lemma cartUpdate_sets_quantity_witness :
  Frontend.userId session_u1 = Some "u1" /\
  Frontend.find (CartService.hasProductId 1) (CartService.readCart cartOfTwo "u1") =
    Some (CartItem.mk 1 2) /\
  products cartOfTwo !! 1 = Some (Product.withStock phone 48) /\
  0 < 5 /\
  stockOf (fst (fst (Frontend.cartUpdate cartOfTwo session_u1 "fresh" 1 5 later))) 1 =
    Some (48 + (2 - 5)).
Proof.
  split; [reflexivity|]. split; [exact cartOfTwo_find|]. split; [exact cartOfTwo_phone|].
  split; [lia|].
  pose proof (cartUpdate_sets_quantity cartOfTwo session_u1 "fresh" 1 5 later "u1" _ _
                eq_refl cartOfTwo_find cartOfTwo_phone eq_refl ltac:(lia)) as Hthm.
  destruct (Frontend.cartUpdate cartOfTwo session_u1 "fresh" 1 5 later) as [[w' session'] page].
  destruct Hthm as (_ & _ & _ & _ & _ & Hstockof & _). exact Hstockof.
Defined.

Lemma cartRemove_is_cartUpdate_nonpositive_witness :
  -3 <= 0 /\
  Frontend.cartRemove cartOfTwo session_u1 "fresh" 1 later =
    Frontend.cartUpdate cartOfTwo session_u1 "fresh" 1 (-3) later.
Proof.
  assert (Hle : -3 <= 0) by lia.
  split; [exact Hle|].
  exact (cartRemove_is_cartUpdate_nonpositive cartOfTwo session_u1 "fresh" 1 (-3) later Hle).
Defined.

(** [u1] removes the product 1 from the cart. *)
Lemma cartRemove_restores_stock_witness :
  Frontend.userId session_u1 = Some "u1" /\
  Frontend.find (CartService.hasProductId 1) (CartService.readCart cartOfTwo "u1") =
    Some (CartItem.mk 1 2) /\
  products cartOfTwo !! 1 = Some (Product.withStock phone 48) /\
  stockOf (fst (fst (Frontend.cartRemove cartOfTwo session_u1 "fresh" 1 later))) 1 =
    Some (48 + 2).
Proof.
  split; [reflexivity|]. split; [exact cartOfTwo_find|]. split; [exact cartOfTwo_phone|].
  pose proof (cartRemove_restores_stock cartOfTwo session_u1 "fresh" 1 later "u1" _ _
                eq_refl cartOfTwo_find cartOfTwo_phone eq_refl) as Hthm.
  destruct (Frontend.cartRemove cartOfTwo session_u1 "fresh" 1 later) as [[w' session'] page].
  destruct Hthm as (_ & _ & _ & _ & _ & Hstockof & _). exact Hstockof.
Defined.

(** [u1] removes the product 2, which the cart does not hold. *)
Lemma cartRemove_absent_product_witness :
  (2 ∉ (CartItem.productId <$>
          CartService.readCart cartOfTwo (fst (Frontend.getUserId session_u1 "fresh")))) /\
  Frontend.cartRemove cartOfTwo session_u1 "fresh" 2 later =
    (cartOfTwo, session_u1, Frontend.Redirect "/cart").
Proof.
  assert (Hnot : 2 ∉ (CartItem.productId <$>
             CartService.readCart cartOfTwo (fst (Frontend.getUserId session_u1 "fresh")))).
  { change (fst (Frontend.getUserId session_u1 "fresh")) with "u1".
    rewrite cartOfTwo_cart. intros Hin. apply list_elem_of_singleton in Hin.
    discriminate Hin. }
  split; [exact Hnot|].
  exact (cartRemove_absent_product cartOfTwo session_u1 "fresh" 2 later Hnot).
Defined.

(** [u1] adds two units of the product 1 to an empty cart and removes the
    product again. *)
Lemma addItem_then_cartRemove_witness :
  Frontend.userId session_u1 = Some "u1" /\
  products seeded !! 1 = Some phone /\ Product.id phone = 1 /\
  2 <= Product.stock phone /\
  (1 ∉ (CartItem.productId <$> CartService.readCart seeded "u1")) /\
  products (fst (fst (Frontend.cartRemove cartOfTwo session_u1 "fresh" 1 later))) =
    products seeded.
Proof.
  assert (Hget : products seeded !! 1 = Some phone) by (vm_compute; reflexivity).
  assert (Hkey : Product.id phone = 1) by reflexivity.
  assert (Hle : 2 <= Product.stock phone) by (cbn; lia).
  assert (Hnot : 1 ∉ (CartItem.productId <$> CartService.readCart seeded "u1")).
  { assert (Hcart : CartService.readCart seeded "u1" = []) by (vm_compute; reflexivity).
    rewrite Hcart. apply not_elem_of_nil. }
  split; [reflexivity|]. split; [exact Hget|]. split; [exact Hkey|]. split; [exact Hle|].
  split; [exact Hnot|].
  pose proof (addItem_then_cartRemove seeded session_u1 "fresh" "u1" 1 2 noon later phone
                eq_refl Hget Hkey Hle Hnot) as Hthm.
  cbv zeta in Hthm. fold cartOfTwo in Hthm.
  destruct (Frontend.cartRemove cartOfTwo session_u1 "fresh" 1 later) as [[w2 session'] page].
  destruct Hthm as (_ & Hproducts & _). exact Hproducts.
Defined.

(** [u1] clears the cart that holds two units of the product 1. *)
Lemma cartClear_restores_stock_witness :
  Frontend.userId session_u1 = Some "u1" /\
  keyed cartOfTwo /\
  (forall item, item ∈ CartService.readCart cartOfTwo "u1" ->
                is_Some (products cartOfTwo !! CartItem.productId item)) /\
  let w' := fst (fst (Frontend.cartClear cartOfTwo session_u1 "fresh" later)) in
  CartService.getCart w' "u1" = Sent [] /\
  stockOf w' 1 =
    (fun s => s + units 1 (CartService.readCart cartOfTwo "u1")) <$> stockOf cartOfTwo 1.
Proof.
  split; [reflexivity|]. split; [exact cartOfTwo_keyed|].
  split; [exact cartOfTwo_products_present|].
  pose proof (cartClear_restores_stock cartOfTwo session_u1 "fresh" later "u1"
                eq_refl cartOfTwo_keyed cartOfTwo_products_present) as Hthm.
  destruct (Frontend.cartClear cartOfTwo session_u1 "fresh" later) as [[w' session'] page].
  destruct Hthm as (_ & _ & Hcart & Hstock & _). cbv zeta. cbn [fst].
  split; [exact Hcart|exact (Hstock 1)].
Defined.

(** [u1] clears a cart whose second line names the product 999. *)
Lemma cartClear_unknown_product_witness :
  Frontend.userId session_u1 = Some "u1" /\
  keyed mixedCart /\
  CartService.readCart mixedCart "u1" = [CartItem.mk 1 2] ++ CartItem.mk 999 1 :: [] /\
  (forall item', item' ∈ [CartItem.mk 1 2] ->
                 is_Some (products mixedCart !! CartItem.productId item')) /\
  products mixedCart !! 999 = None /\
  let w' := fst (fst (Frontend.cartClear mixedCart session_u1 "fresh" later)) in
  carts w' = carts mixedCart /\
  stockOf w' 1 = (fun s => s + 2) <$> stockOf mixedCart 1.
Proof.
  assert (Hcart : CartService.readCart mixedCart "u1" =
                    [CartItem.mk 1 2] ++ CartItem.mk 999 1 :: [])
    by (vm_compute; reflexivity).
  assert (Hpre : forall item', item' ∈ [CartItem.mk 1 2] ->
                   is_Some (products mixedCart !! CartItem.productId item')).
  { intros item' Hin. apply list_elem_of_singleton in Hin as ->.
    vm_compute. eexists. reflexivity. }
  assert (Hnone : products mixedCart !! CartItem.productId (CartItem.mk 999 1) = None)
    by (vm_compute; reflexivity).
  split; [reflexivity|]. split; [exact mixedCart_keyed|]. split; [exact Hcart|].
  split; [exact Hpre|]. split; [exact Hnone|].
  pose proof (cartClear_unknown_product mixedCart session_u1 "fresh" later "u1"
                [CartItem.mk 1 2] (CartItem.mk 999 1) []
                eq_refl mixedCart_keyed Hcart Hpre Hnone) as Hthm.
  destruct (Frontend.cartClear mixedCart session_u1 "fresh" later) as [[w' session'] page].
  destruct Hthm as (_ & _ & Hcarts & Hstock). cbv zeta. cbn [fst].
  split; [exact Hcarts|exact (Hstock 1)].
Defined.

(** The cart page of [u1] before the checkout. *)
Lemma cartPage_total_is_order_total_witness :
  Frontend.userId session_u1 = Some "u1" /\
  exists w' order,
    OrderService.createOrder cartOfTwo "u1" alice "order-1" noon later = (w', Sent order) /\
    Frontend.view_total (snd (Frontend.cartPage cartOfTwo session_u1 "fresh")) =
      Order.total order.
Proof.
  split; [reflexivity|].
  destruct cartOfTwo_checkout as (w' & order & Hcreate).
  exists w', order. split; [exact Hcreate|].
  exact (proj1 (cartPage_total_is_order_total cartOfTwo session_u1 "fresh" "u1" alice
                  "order-1" noon later w' order eq_refl Hcreate)).
Defined.

(** The cart page of [u1], whose only line names the product 999. *)
Lemma cartPage_unknown_product_witness :
  Frontend.userId session_u1 = Some "u1" /\
  CartItem.mk 999 1 ∈ CartService.readCart danglingCart "u1" /\
  products danglingCart !! 999 = None /\
  Frontend.cartPage danglingCart session_u1 "fresh" =
    (session_u1, Frontend.mkCartView [] 0%Q 0%nat).
Proof.
  assert (Hin : CartItem.mk 999 1 ∈ CartService.readCart danglingCart "u1").
  { assert (Hcart : CartService.readCart danglingCart "u1" = [CartItem.mk 999 1])
      by (vm_compute; reflexivity).
    rewrite Hcart. left. }
  assert (Hnone : products danglingCart !! CartItem.productId (CartItem.mk 999 1) = None)
    by (vm_compute; reflexivity).
  split; [reflexivity|]. split; [exact Hin|]. split; [exact Hnone|].
  exact (proj1 (cartPage_unknown_product danglingCart session_u1 "fresh" "u1"
                  (CartItem.mk 999 1) eq_refl Hin Hnone)).
Defined.

(** [u1] places an order without a cart. *)
Lemma ordersPlace_empty_cart_witness :
  CartService.getCart seeded (fst (Frontend.getUserId session_u1 "fresh")) = Sent [] /\
  Frontend.ordersPlace seeded session_u1 "fresh" "A" "a@x.com" "1 Main Street"
      "order-1" noon later =
    (seeded, session_u1, Frontend.ErrorPage 500 "Failed to place order" 0%nat).
Proof.
  assert (Hcart : CartService.getCart seeded (fst (Frontend.getUserId session_u1 "fresh")) =
                    @Sent (list CartItem.t) []) by (vm_compute; reflexivity).
  split; [exact Hcart|].
  exact (ordersPlace_empty_cart seeded session_u1 "fresh" "A" "a@x.com" "1 Main Street"
           "order-1" noon later Hcart).
Defined.

(** [u1] places the order for two units of the product 1. *)
Lemma ordersPlace_confirms_witness :
  Frontend.userId session_u1 = Some "u1" /\
  CartService.readCart cartOfTwo "u1" <> [] /\
  (forall item, item ∈ CartService.readCart cartOfTwo "u1" ->
                is_Some (products cartOfTwo !! CartItem.productId item)) /\
  (forall lines, Forall2 (lineOf cartOfTwo) (CartService.readCart cartOfTwo "u1") lines ->
                 num_nonneg (sumTotals lines) = true) /\
  snd (Frontend.ordersPlace cartOfTwo session_u1 "fresh" "A" "a@x.com" "1 Main Street"
         "order-1" noon later) =
    Frontend.Confirmation "/orders/confirmation/order-1".
Proof.
  assert (Hnonempty : CartService.readCart cartOfTwo "u1" <> [])
    by (rewrite cartOfTwo_cart; discriminate).
  split; [reflexivity|]. split; [exact Hnonempty|].
  split; [exact cartOfTwo_products_present|]. split; [exact cartOfTwo_total|].
  pose proof (ordersPlace_confirms cartOfTwo session_u1 "fresh" "A" "a@x.com"
                "1 Main Street" "order-1" noon later "u1"
                eq_refl Hnonempty cartOfTwo_products_present cartOfTwo_total) as Hthm.
  destruct (Frontend.ordersPlace cartOfTwo session_u1 "fresh" "A" "a@x.com"
              "1 Main Street" "order-1" noon later) as [[w' session'] result].
  destruct Hthm as (Hresult & _). exact Hresult.
Defined.

Lemma negativeCart_cart : CartService.readCart negativeCart "u1" = [CartItem.mk 1 (-1)].
Proof. vm_compute. reflexivity. Qed.

Lemma negativeCart_products_present item :
  item ∈ CartService.readCart negativeCart "u1" ->
  is_Some (products negativeCart !! CartItem.productId item).
Proof.
  rewrite negativeCart_cart. intros Hin. apply list_elem_of_singleton in Hin as ->.
  vm_compute. eexists. reflexivity.
Qed.

Lemma negativeCart_total lines :
  Forall2 (lineOf negativeCart) (CartService.readCart negativeCart "u1") lines ->
  num_nonneg (sumTotals lines) = false.
Proof.
  intros Hlines.
  destruct (orderLoop_total negativeCart _ num_zero [] negativeCart_products_present)
    as (lines0 & Hloop & Hlines0).
  rewrite (lineOf_functional _ _ _ _ Hlines Hlines0). clear lines Hlines Hlines0.
  rewrite negativeCart_cart in Hloop. vm_compute in Hloop. injection Hloop as _ <-.
  vm_compute. reflexivity.
Qed.


(** [u1] places the order for -1 unit of the product 1. *)
Lemma ordersPlace_rejected_total_witness :
  Frontend.userId session_u1 = Some "u1" /\
  CartService.readCart negativeCart "u1" <> [] /\
  (forall item, item ∈ CartService.readCart negativeCart "u1" ->
                is_Some (products negativeCart !! CartItem.productId item)) /\
  (forall lines,
      Forall2 (lineOf negativeCart) (CartService.readCart negativeCart "u1") lines ->
      num_nonneg (sumTotals lines) = false) /\
  snd (Frontend.ordersPlace negativeCart session_u1 "fresh" "A" "a@x.com" "1 Main Street"
         "order-1" noon later) =
    Frontend.ErrorPage 500 "Failed to place order" 0%nat.
Proof.
  assert (Hnonempty : CartService.readCart negativeCart "u1" <> [])
    by (rewrite negativeCart_cart; discriminate).
  split; [reflexivity|]. split; [exact Hnonempty|].
  split; [exact negativeCart_products_present|]. split; [exact negativeCart_total|].
  pose proof (ordersPlace_rejected_total negativeCart session_u1 "fresh" "A" "a@x.com"
                "1 Main Street" "order-1" noon later "u1"
                eq_refl Hnonempty negativeCart_products_present negativeCart_total) as Hthm.
  destruct (Frontend.ordersPlace negativeCart session_u1 "fresh" "A" "a@x.com"
              "1 Main Street" "order-1" noon later) as [[w' session'] result].
  destruct Hthm as (Hresult & _). exact Hresult.
Defined.
